(** * everest: the no-SQL session, its entity cache and the unit of work

    A shallow embedding of [everest/repositories/nosqldb/uow.py] and
    [everest/repositories/nosqldb/session.py].

    Python objects are mutable and shared, and a raised exception does not
    undo the assignments made before it.  Methods are therefore embedded as
    computations in a state monad whose state survives a [Raise]; entities
    live in a heap indexed by object identity. *)

From Stdlib Require Import ZArith Lia Ascii Sorted.
From stdpp Require Import gmap strings list pretty functions.

(** ** The Python runtime the code relies on *)

Module Py.

(** The exceptions the two modules raise (or that the interpreter raises on
    their behalf). *)
Inductive exn : Type :=
| ValueError (msg : string)
| KeyError
| TypeError (msg : string)
| AttributeError (msg : string).

Inductive result (A : Type) : Type :=
| Ok (a : A)
| Raise (e : exn).

Arguments Ok {A} a.
Arguments Raise {A} e.

(** A method with receiver (or world) of type [S]: the state reached is
    returned also when the method raises. *)
Definition M (S A : Type) : Type := S → result A * S.

#[global] Instance M_ret {S} : MRet (M S) := λ A a s, (Ok a, s).

#[global] Instance M_bind {S} : MBind (M S) := λ A B f m s,
  match m s with
  | (Ok a, s') => f a s'
  | (Raise e, s') => (Raise e, s')
  end.

Definition raise {S A} (e : exn) : M S A := λ s, (Raise e, s).

Definition get {S} : M S S := λ s, (Ok s, s).

Definition gets {S A} (f : S → A) : M S A := λ s, (Ok (f s), s).

Definition modify {S} (f : S → S) : M S unit := λ s, (Ok tt, f s).

(** [for x in xs: body(x)], for a body that leaves [xs] alone. *)
Fixpoint for_each {S X} (xs : list X) (body : X → M S unit) : M S unit :=
  match xs with
  | [] => mret tt
  | x :: xs' => body x ≫= λ _, for_each xs' body
  end.

(** Attribute values: [None], integers and strings. *)
Inductive pyval : Type :=
| VNone
| VInt (n : Z)
| VStr (s : string).

#[global] Instance pyval_eq_dec : EqDecision pyval.
Proof. solve_decision. Defined.

(** ['%s' % v] *)
Definition str (v : pyval) : string :=
  match v with
  | VNone => "None"
  | VInt n => pretty n
  | VStr s => s
  end.

(** [k.startswith('_')] *)
Definition startswith_underscore (k : string) : bool :=
  match k with
  | String "_"%char _ => true
  | _ => false
  end.

Definition dquote : string := String "034"%char EmptyString.

(** A C [long] of 64 bits, two's complement. *)
Definition wrap64 (x : Z) : Z := ((x + 2 ^ 63) mod 2 ^ 64 - 2 ^ 63)%Z.

Definition ord (c : ascii) : Z := Z.of_nat (nat_of_ascii c).

Fixpoint string_hash_loop (x : Z) (s : string) : Z :=
  match s with
  | EmptyString => x
  | String c s' =>
      string_hash_loop (Z.lxor (wrap64 (1000003 * x)) (ord c)) s'
  end.

(** The builtin [hash] on [str] of CPython 2.7 (64-bit build, hash
    randomisation off, which is the default): [string_hash] of
    [Objects/stringobject.c].  The development is parametric in [hash];
    this instance is used to evaluate the code on concrete entities. *)
Definition py_hash (s : string) : Z :=
  match s with
  | EmptyString => 0%Z
  | String c _ =>
      let x := wrap64 (Z.shiftl (ord c) 7) in
      let x := string_hash_loop x s in
      let x := Z.lxor x (Z.of_nat (String.length s)) in
      if (x =? -1)%Z then (-2)%Z else x
  end.

End Py.

Export Py.

(** Object identity. *)
Definition ref : Type := nat.

(** Entity classes, by name. *)
Definition entity_class : Type := string.

(** ** [uow.py]: object states *)

Inductive OBJECT_STATES : Type :=
| CLEAN
| NEW
| DELETED
| DIRTY.

#[global] Instance OBJECT_STATES_eq_dec : EqDecision OBJECT_STATES.
Proof. solve_decision. Defined.

(** The string constant behind each state. *)
Definition state_name (s : OBJECT_STATES) : string :=
  match s with
  | CLEAN => "CLEAN"
  | NEW => "NEW"
  | DELETED => "DELETED"
  | DIRTY => "DIRTY"
  end.

(** The state holder [ObjectStateManager]: its three private attributes. *)
Record ObjectStateManager_t : Type := {
  __obj_ref : ref;
  __state : OBJECT_STATES;
  __last_state_hash : Z
}.

(** An entity.  The entity classes are not part of the two modules; the code
    reads [entity.id], [entity.slug], [entity.__dict__] and
    [entity.__everest__] (absent until a state holder is attached).
    [__dict__] lists the instance attributes in the order in which
    [iteritems()] yields them. *)
Record Entity : Type := {
  ent_id : option Z;
  ent_slug : option string;
  __dict__ : list (string * pyval);
  __everest__ : option ObjectStateManager_t
}.

Abbreviation Heap := (ref → Entity).

Definition set_id (v : option Z) (e : Entity) : Entity :=
  {| ent_id := v; ent_slug := ent_slug e;
     __dict__ := __dict__ e; __everest__ := __everest__ e |}.

Definition set_slug (v : option string) (e : Entity) : Entity :=
  {| ent_id := ent_id e; ent_slug := v;
     __dict__ := __dict__ e; __everest__ := __everest__ e |}.

Definition set_dict (d : list (string * pyval)) (e : Entity) : Entity :=
  {| ent_id := ent_id e; ent_slug := ent_slug e;
     __dict__ := d; __everest__ := __everest__ e |}.

Definition set_everest (t : option ObjectStateManager_t) (e : Entity) : Entity :=
  {| ent_id := ent_id e; ent_slug := ent_slug e;
     __dict__ := __dict__ e; __everest__ := t |}.

Module ObjectStateManager.

Definition t : Type := ObjectStateManager_t.

Definition __allowed_transitions : list (OBJECT_STATES * OBJECT_STATES) :=
  [ (NEW, DIRTY);
    (NEW, DELETED);
    (CLEAN, DIRTY);
    (CLEAN, DELETED);
    (DIRTY, DELETED);
    (DIRTY, CLEAN) ].

(** The public attribute name:value pairs, in [iteritems()] order. *)
Definition tokens (d : list (string * pyval)) : list string :=
  map (λ kv, kv.1 +:+ ":" +:+ str kv.2)
      (List.filter (λ kv, negb (startswith_underscore kv.1)) d).

Definition __get_state_string (h : Heap) (self : t) : string :=
  let obj := h (__obj_ref self) in
  String.concat "," (tokens (__dict__ obj)).

Section WithHash.

(** The builtin [hash]. *)
Variable hash : string → Z.

Definition __init__ (h : Heap) (tracked_object : ref)
    (initial_state : OBJECT_STATES) : result t :=
  if bool_decide (initial_state ∈ [NEW; CLEAN]) then
    let self := {| __obj_ref := tracked_object; __state := initial_state;
                   __last_state_hash := 0 |} in
    Ok {| __obj_ref := tracked_object; __state := initial_state;
          __last_state_hash := hash (__get_state_string h self) |}
  else
    Raise (ValueError ("Invalid initial state " +:+ dquote
                       +:+ state_name initial_state +:+ dquote +:+ ".")).

Definition __get_state (h : Heap) (self : t) : OBJECT_STATES :=
  let state := __state self in
  if decide (state = CLEAN) then
    let obj_hash := hash (__get_state_string h self) in
    if decide (obj_hash ≠ __last_state_hash self) then DIRTY else state
  else state.

Definition __set_state (h : Heap) (state : OBJECT_STATES) : M t unit :=
  λ self,
    if bool_decide ((__get_state h self, state) ∈ __allowed_transitions) then
      (Ok tt, {| __obj_ref := __obj_ref self; __state := state;
                 __last_state_hash := __last_state_hash self |})
    else
      (Raise (ValueError ("Invalid state transition "
                          +:+ state_name (__state self) +:+ " -> "
                          +:+ state_name state +:+ ".")), self).

Definition reset_state (h : Heap) : M t unit :=
  __set_state h CLEAN ≫= λ _,
  modify (λ self,
    {| __obj_ref := __obj_ref self; __state := __state self;
       __last_state_hash := hash (__get_state_string h self) |}).

End WithHash.

End ObjectStateManager.


(** ** [everest.utils.id_generator] *)

Module id_generator.

(** Modelled from the spec: [everest.utils.id_generator] is imported by
    [session.py] but is not among the sources.  The spec describes the
    per-class allocator state as a generator cursor that counts up from the
    base 0: a generator that has not been started yet, or one suspended
    after yielding [count]. *)
Inductive t : Type :=
| Fresh
| Yielded (count : Z).

(** [id_generator()] *)
Definition create : t := Fresh.

(** [id_gen.next()]: the value yielded. *)
Definition next : M t Z := λ g,
  match g with
  | Fresh => (Ok 0%Z, Yielded 0)
  | Yielded count => (Ok (count + 1)%Z, Yielded (count + 1))
  end.

End id_generator.

(** ** [session.py]: [EntityIdGenerator] *)

Module EntityIdGenerator.

Record t : Type := {
  __id_gen_map : gmap entity_class id_generator.t;
  __next_id_map : gmap entity_class Z
}.

Definition __init__ : t :=
  {| __id_gen_map := ∅; __next_id_map := ∅ |}.

Definition get_current_id (entity_class : entity_class) (self : t) : Z :=
  default 0%Z (__next_id_map self !! entity_class).

(** Runs a method of the generator stored for [ent_cls]; the generator is a
    shared object, so the stored one advances. *)
Definition on_generator {A} (ent_cls : entity_class) (g : id_generator.t)
    (m : M id_generator.t A) : M t A := λ self,
  let '(r, g') := m g in
  (r, {| __id_gen_map := <[ent_cls := g']> (__id_gen_map self);
         __next_id_map := __next_id_map self |}).

Definition set_next_id (ent_cls : entity_class) (v : Z) : M t unit :=
  modify (λ self, {| __id_gen_map := __id_gen_map self;
                     __next_id_map := <[ent_cls := v]> (__next_id_map self) |}).

Definition __get_id_generator (ent_cls : entity_class) : M t id_generator.t :=
  id_gen ← gets (λ self, __id_gen_map self !! ent_cls);
  match id_gen with
  | Some id_gen => mret id_gen
  | None =>
      v ← on_generator ent_cls id_generator.create id_generator.next;
      set_next_id ent_cls v ≫= λ _,
      id_gen ← gets (λ self, __id_gen_map self !! ent_cls);
      mret (default id_generator.create id_gen)
  end.

Definition get_next_id (entity_class : entity_class) : M t Z :=
  id_gen ← __get_id_generator entity_class;
  next_id ← on_generator entity_class id_gen id_generator.next;
  set_next_id entity_class next_id ≫= λ _,
  mret (next_id - 1)%Z.

End EntityIdGenerator.

(** ** The backing repository *)

Module Repository.

Inductive call : Type :=
| replace (ent : ref)
| add (ent : ref)
| remove (ent : ref).

(** Modelled from the spec: the repository is an external collaborator
    that exposes [add], [replace], [remove], [get_next_id] and a lock.  Its
    persistence primitives are recorded in the order in which they are
    called; [get_next_id] delegates to the id generator.  The lock is not
    modelled (one thread). *)
Record t : Type := {
  calls : list call;
  id_gen : EntityIdGenerator.t
}.

Definition record (c : call) : M t unit :=
  modify (λ self, {| calls := calls self ++ [c]; id_gen := id_gen self |}).

Definition get_next_id (entity_class : entity_class) : M t Z := λ self,
  let '(r, g) := EntityIdGenerator.get_next_id entity_class (id_gen self) in
  (r, {| calls := calls self; id_gen := g |}).

End Repository.

(** ** [weakref.WeakSet] *)

(** A [WeakSet] iterates in the order of its hash table: where [add] puts a
    new member, and whether it moves the others, is decided by the hashes of
    the objects and by the history of the table, not by the code under
    study.  [placed x l] is the iteration order of a set that iterated as
    [l] once [x], no member so far, has been added: some arrangement of [x]
    and the members of [l].  Members are told apart as [object] hashes and
    compares them, by identity. *)
Class WeakSet_order : Type := {
  placed : ref → list ref → list ref;
  placed_perm : ∀ x l, placed x l ≡ₚ x :: l
}.

(** ** [uow.py]: [UnitOfWork] *)

Module UnitOfWork.

(** [__entity_set_map] is a [defaultdict(WeakSet)]: the classes in the order
    in which [keys()] lists them, each with its live set in iteration order.
    A weak set behaves as a set for as long as its members are referenced
    from elsewhere, which the heap does for every entity. *)
Record t : Type := {
  __repository : Repository.t;
  __entity_set_map : list (entity_class * list ref)
}.

Definition __init__ (repository : Repository.t) : t :=
  {| __repository := repository; __entity_set_map := [] |}.

(** The world a unit of work acts on: the entities and itself. *)
Definition world : Type := Heap * t.

Definition set_map (m : list (entity_class * list ref)) (self : t) : t :=
  {| __repository := __repository self; __entity_set_map := m |}.

Fixpoint alist_lookup {V} (k : entity_class) (m : list (entity_class * V))
    : option V :=
  match m with
  | [] => None
  | (k', v) :: m' => if decide (k' = k) then Some v else alist_lookup k m'
  end.

Fixpoint alist_update {V} (k : entity_class) (v : V)
    (m : list (entity_class * V)) : list (entity_class * V) :=
  match m with
  | [] => []
  | (k', v') :: m' =>
      if decide (k' = k) then (k', v) :: m'
      else (k', v') :: alist_update k v m'
  end.

Definition on_repository {A} (m : M Repository.t A) : M world A := λ w,
  let '(r, repo) := m (__repository w.2) in
  (r, (w.1, {| __repository := repo;
               __entity_set_map := __entity_set_map w.2 |})).

(** [self.__entity_set_map[ent_cls]]: a missing key is entered with an
    empty set.  The new class is listed last here, where a dict lists it
    by its hash: the properties read the order of the classes as it is,
    never where a new class has been put. *)
Definition entity_set (ent_cls : entity_class) : M world (list ref) := λ w,
  match alist_lookup ent_cls (__entity_set_map w.2) with
  | Some s => (Ok s, w)
  | None =>
      (Ok [], (w.1, set_map (__entity_set_map w.2 ++ [(ent_cls, [])]) w.2))
  end.

(** [self.__entity_set_map[entity_class].add(entity)] *)
Definition entity_set_add {order : WeakSet_order}
    (entity_class : entity_class) (entity : ref) : M world unit :=
  s ← entity_set entity_class;
  if bool_decide (entity ∈ s) then mret tt
  else modify (λ w : world,
         (w.1, set_map (alist_update entity_class (placed entity s)
                          (__entity_set_map w.2)) w.2)).

(** [hasattr(entity, '__everest__')] *)
Definition hasattr_everest (entity : ref) : M world bool :=
  gets (λ w : world, bool_decide (is_Some (__everest__ (w.1 entity)))).

(** [entity.__everest__ = everest] *)
Definition setattr_everest (entity : ref) (everest : ObjectStateManager.t)
    : M world unit :=
  modify (λ w : world,
    (<[entity := set_everest (Some everest) (w.1 entity)]> w.1, w.2)).

(** [entity.__everest__.m(...)]: the method runs on the state holder
    attached to the entity and leaves its changes there. *)
Definition on_everest {A} (entity : ref)
    (m : Heap → M ObjectStateManager.t A) : M world A := λ w,
  match __everest__ (w.1 entity) with
  | None => (Raise (AttributeError "__everest__"), w)
  | Some everest =>
      let '(r, everest') := m w.1 everest in
      (r, (<[entity := set_everest (Some everest') (w.1 entity)]> w.1, w.2))
  end.

(** [ObjectStateManager(x)]: a call with one argument, where [__init__]
    takes the tracked object and the initial state. *)
Definition ObjectStateManager_1 (x : OBJECT_STATES)
    : result ObjectStateManager.t :=
  Raise (TypeError "__init__() takes exactly 3 arguments (2 given)").

Definition lift_result {S A} (r : result A) : M S A := λ s, (r, s).

Section WithHash.

Variable hash : string → Z.

Context {order : WeakSet_order}.

(** Modelled from the spec: [commit] and [__object_iterator] read
    [ent.state] on an entity, an attribute of the entity classes, which are
    not among the sources.  The spec dispatches on the observed state, that
    is the [state] property of the state holder attached to the entity. *)
Definition state (h : Heap) (ent : ref) : result OBJECT_STATES :=
  match __everest__ (h ent) with
  | None => Raise (AttributeError "state")
  | Some everest => Ok (ObjectStateManager.__get_state hash h everest)
  end.

Definition ent_state (ent : ref) : M world OBJECT_STATES :=
  λ w, (state w.1 ent, w).

Definition register_new (entity_class : entity_class) (entity : ref)
    : M world unit :=
  has ← hasattr_everest entity;
  if has : bool then
    raise (ValueError
      "Trying to register a NEW entity that has already been registered!")
  else
    everest ← lift_result (ObjectStateManager_1 NEW);
    setattr_everest entity everest ≫= λ _,
    id ← gets (λ w : world, ent_id (w.1 entity));
    match id with
    | None =>
        next_id ← on_repository (Repository.get_next_id entity_class);
        modify (λ w : world,
          (<[entity := set_id (Some next_id) (w.1 entity)]> w.1, w.2))
    | Some _ => mret tt
    end ≫= λ _,
    entity_set_add entity_class entity.

Definition mark_clean (entity_class : entity_class) (entity : ref)
    : M world unit :=
  has ← hasattr_everest entity;
  (if has : bool then
     on_everest entity (λ h, ObjectStateManager.__set_state hash h CLEAN)
   else
     everest ← lift_result (ObjectStateManager_1 CLEAN);
     setattr_everest entity everest) ≫= λ _,
  entity_set_add entity_class entity.

Definition mark_deleted (entity_class : entity_class) (entity : ref)
    : M world unit :=
  has ← hasattr_everest entity;
  if has : bool then
    on_everest entity (λ h, ObjectStateManager.__set_state hash h DELETED)
      ≫= λ _,
    entity_set_add entity_class entity
  else
    raise (ValueError "Trying to mark an unregistered entity as DELETED!").

Definition mark_dirty (entity_class : entity_class) (entity : ref)
    : M world unit :=
  has ← hasattr_everest entity;
  if has : bool then
    on_everest entity (λ h, ObjectStateManager.__set_state hash h DIRTY)
      ≫= λ _,
    entity_set_add entity_class entity
  else
    raise (ValueError "Trying to mark an unregistered entity as DIRTY!").

(** The body of the inner loop of [commit]. *)
Definition commit_entity (ent : ref) : M world unit :=
  (s ← ent_state ent;
   if decide (s = DIRTY) then on_repository (Repository.record (Repository.replace ent))
   else
     s ← ent_state ent;
     if decide (s = NEW) then on_repository (Repository.record (Repository.add ent))
     else
       s ← ent_state ent;
       if decide (s = DELETED) then
         on_repository (Repository.record (Repository.remove ent))
       else mret tt) ≫= λ _,
  on_everest ent (ObjectStateManager.reset_state hash).

Definition commit : M world unit :=
  keys ← gets (λ w : world, (__entity_set_map w.2).*1);
  for_each keys (λ ent_cls,
    ents ← entity_set ent_cls;
    for_each ents commit_entity).

Definition rollback : M world unit :=
  modify (λ w : world, (w.1, set_map [] w.2)).

(** What a generator made by [__object_iterator] yields over the entities
    [ents] it walks: the ones in state [state], up to the first entity on
    which reading [ent.state] raises. *)
Fixpoint yield_in_state (h : Heap) (st : OBJECT_STATES) (ents : list ref)
    : list ref * option exn :=
  match ents with
  | [] => ([], None)
  | ent :: ents' =>
      match state h ent with
      | Raise e => ([], Some e)
      | Ok s =>
          let '(ys, err) := yield_in_state h st ents' in
          if decide (s = st) then (ent :: ys, err) else (ys, err)
      end
  end.

Fixpoint entity_sets (keys : list entity_class) : M world (list ref) :=
  match keys with
  | [] => mret []
  | key :: keys' =>
      s ← entity_set key;
      ss ← entity_sets keys';
      mret (s ++ ss)
  end.

(** The generator is consumed where it is made and its consumers do not
    write to the world, so what it yields is computed in one go. *)
Definition __object_iterator (st : OBJECT_STATES)
    (ent_cls : option entity_class) : M world (list ref * option exn) :=
  keys ← match ent_cls with
         | None => gets (λ w : world, (__entity_set_map w.2).*1)
         | Some ent_cls => mret [ent_cls]
         end;
  ents ← entity_sets keys;
  gets (λ w : world, yield_in_state w.1 st ents).

Definition get_clean := __object_iterator CLEAN.

Definition get_new := __object_iterator NEW.

Definition get_deleted := __object_iterator DELETED.

Definition get_dirty := __object_iterator DIRTY.

End WithHash.

(** [uow.register_new(entity)], [uow.mark_deleted(entity)]: calls with one
    argument, where the methods take the entity class and the entity. *)
Definition register_new_1 (entity : ref) : M world unit :=
  raise (TypeError "register_new() takes exactly 3 arguments (2 given)").

Definition mark_deleted_1 (entity : ref) : M world unit :=
  raise (TypeError "mark_deleted() takes exactly 3 arguments (2 given)").

End UnitOfWork.

(** ** [==] on entities *)

(** The entity classes are not among the sources, so what their [__eq__]
    answers is left open: [py_eq h y x] is the outcome of [y == x] for two
    entities as they are in [h].  For classes that keep the comparison of
    [object] it is [False] on any two distinct objects. *)
Class entity_eq : Type := py_eq : Heap → ref → ref → bool.

(** ** [session.py]: [EntityCache] *)

Module EntityCache.

(** [__entities] holds the entities; [__id_map] and [__slug_map] are
    [WeakValueDictionary]s, which keep an entry for as long as its entity is
    referenced from elsewhere.  No method enters [None] as a key, so the key
    [None] is looked up and popped without effect. *)
Record t : Type := {
  __entities : list ref;
  __id_map : gmap Z ref;
  __slug_map : gmap string ref
}.

Definition __init__ : t :=
  {| __entities := []; __id_map := ∅; __slug_map := ∅ |}.

Definition get_by_id (entity_id : option Z) (self : t) : option ref :=
  entity_id ≫= λ i, __id_map self !! i.

Definition has_id (entity_id : option Z) (self : t) : bool :=
  bool_decide (is_Some (entity_id ≫= λ i, __id_map self !! i)).

Definition get_by_slug (entity_slug : option string) (self : t) : option ref :=
  entity_slug ≫= λ s, __slug_map self !! s.

Definition has_slug (entity_slug : option string) (self : t) : bool :=
  bool_decide (is_Some (entity_slug ≫= λ s, __slug_map self !! s)).

Definition set_entities (l : list ref) (self : t) : t :=
  {| __entities := l; __id_map := __id_map self;
     __slug_map := __slug_map self |}.

Definition set_id_map (m : gmap Z ref) (self : t) : t :=
  {| __entities := __entities self; __id_map := m;
     __slug_map := __slug_map self |}.

Definition set_slug_map (m : gmap string ref) (self : t) : t :=
  {| __entities := __entities self; __id_map := __id_map self;
     __slug_map := m |}.

Section WithEq.

Context {eqv : entity_eq}.

(** [l.remove(x)]: drops the first item [y] such that [y is x] or [y == x];
    [None] stands for the [ValueError] raised when there is none. *)
Fixpoint list_remove (h : Heap) (x : ref) (l : list ref)
    : option (list ref) :=
  match l with
  | [] => None
  | y :: l' =>
      if bool_decide (y = x) || py_eq h y x then Some l'
      else (y ::.) <$> list_remove h x l'
  end.

Definition add (h : Heap) (entity : ref) : M t unit :=
  match ent_id (h entity) with
  | None => raise (ValueError "Entity ID must not be None.")
  | Some i =>
      modify (λ self, set_id_map (<[i := entity]> (__id_map self)) self)
        ≫= λ _,
      match ent_slug (h entity) with
      | Some s =>
          modify (λ self,
            set_slug_map (<[s := entity]> (__slug_map self)) self)
      | None => mret tt
      end ≫= λ _,
      modify (λ self, set_entities (__entities self ++ [entity]) self)
  end.

Definition remove (h : Heap) (entity : ref) : M t unit :=
  present ← gets (has_id (ent_id (h entity)));
  if present : bool then
    modify (λ self,
      match ent_id (h entity) with
      | Some i => set_id_map (delete i (__id_map self)) self
      | None => self
      end) ≫= λ _,
    modify (λ self,
      match ent_slug (h entity) with
      | Some s => set_slug_map (delete s (__slug_map self)) self
      | None => self
      end) ≫= λ _,
    l ← gets __entities;
    match list_remove h entity l with
    | Some l' => modify (set_entities l')
    | None => raise (ValueError "list.remove(x): x not in list")
    end
  else raise KeyError.

Definition replace (h : Heap) (entity : ref) : M t unit :=
  old_entity ← gets (get_by_id (ent_id (h entity)));
  match old_entity with
  | None => raise KeyError
  | Some old_entity =>
      remove h old_entity ≫= λ _,
      add h entity
  end.

End WithEq.

End EntityCache.

(** ** [session.py]: [EntityCacheManager] *)

Module EntityCacheManager.

Record t : Type := {
  __cache_map : gmap entity_class EntityCache.t
}.

Definition __init__ : t := {| __cache_map := ∅ |}.

Definition _initialize_cache (ent_cls : entity_class) : M t EntityCache.t :=
  modify (λ self,
    {| __cache_map := <[ent_cls := EntityCache.__init__]> (__cache_map self) |})
    ≫= λ _,
  mret EntityCache.__init__.

Definition __getitem__ (entity_class : entity_class) : M t EntityCache.t :=
  cache ← gets (λ self, __cache_map self !! entity_class);
  match cache with
  | None => _initialize_cache entity_class
  | Some cache => mret cache
  end.

(** A method run on the cache object of [entity_class], which stays in the
    map. *)
Definition on_cache {A} (entity_class : entity_class)
    (m : M EntityCache.t A) : M t A :=
  cache ← __getitem__ entity_class;
  ((λ self,
     let '(r, cache') := m cache in
     (r, {| __cache_map := <[entity_class := cache']> (__cache_map self) |}))
   : M t A).

End EntityCacheManager.

(** ** [session.py]: [Session] *)

Module Session.

Record t : Type := {
  __unit_of_work : UnitOfWork.t;
  __cache_mgr : EntityCacheManager.t
}.

Definition __init__ (unit_of_work : UnitOfWork.t) : t :=
  {| __unit_of_work := unit_of_work;
     __cache_mgr := EntityCacheManager.__init__ |}.

Definition world : Type := Heap * t.

Definition on_unit_of_work {A} (m : M UnitOfWork.world A) : M world A := λ w,
  let '(r, (h, uow)) := m (w.1, __unit_of_work w.2) in
  (r, (h, {| __unit_of_work := uow; __cache_mgr := __cache_mgr w.2 |})).

Definition on_cache_mgr {A} (m : Heap → M EntityCacheManager.t A)
    : M world A := λ w,
  let '(r, mgr) := m w.1 (__cache_mgr w.2) in
  (r, (w.1, {| __unit_of_work := __unit_of_work w.2; __cache_mgr := mgr |})).

Definition duplicate_key (i : Z) : exn :=
  ValueError ("Duplicate entity key " +:+ dquote +:+ pretty i
              +:+ dquote +:+ ".").

Definition duplicate_slug (s : string) : exn :=
  ValueError ("Duplicate entity slug " +:+ dquote +:+ s +:+ dquote +:+ ".").

Definition add (entity_class : entity_class) (entity : ref) : M world unit :=
  cache ← on_cache_mgr (λ _, EntityCacheManager.__getitem__ entity_class);
  id ← gets (λ w : world, ent_id (w.1 entity));
  if bool_decide (id ≠ None) && EntityCache.has_id id cache then
    raise (duplicate_key (default 0%Z id))
  else
    slug ← gets (λ w : world, ent_slug (w.1 entity));
    if bool_decide (slug ≠ None) && EntityCache.has_slug slug cache then
      raise (duplicate_slug (default "" slug))
    else
      on_unit_of_work (UnitOfWork.register_new_1 entity) ≫= λ _,
      on_cache_mgr (λ h,
        EntityCacheManager.on_cache entity_class (EntityCache.add h entity)).

Definition remove (entity : ref) : M world unit :=
  on_unit_of_work (UnitOfWork.mark_deleted_1 entity).

Definition get_by_id (entity_cls : entity_class) (entity_id : option Z)
    : M world (option ref) :=
  cache ← on_cache_mgr (λ _, EntityCacheManager.__getitem__ entity_cls);
  mret (EntityCache.get_by_id entity_id cache).

Section WithHash.

Variable hash : string → Z.

Definition commit : M world unit :=
  on_unit_of_work (UnitOfWork.commit hash).

Definition rollback : M world unit :=
  on_unit_of_work UnitOfWork.rollback.

Definition get_by_slug (entity_cls : entity_class)
    (entity_slug : option string) : M world (option ref) :=
  cache ← on_cache_mgr (λ _, EntityCacheManager.__getitem__ entity_cls);
  match EntityCache.get_by_slug entity_slug cache with
  | Some found_ent => mret (Some found_ent)
  | None =>
      gen ← on_unit_of_work (UnitOfWork.get_new hash (Some entity_cls));
      h ← gets (λ w : world, w.1);
      match List.find (λ ent, bool_decide (ent_slug (h ent) = entity_slug))
                      gen.1 with
      | Some ent => mret (Some ent)
      | None =>
          match gen.2 with
          | Some e => raise e
          | None => mret None
          end
      end
  end.

End WithHash.

End Session.

(** * Vocabulary of the properties *)

(** What [hash(self.__get_state_string())] computes: the hash of the public
    name:value pairs of the tracked object, joined by commas. *)
Definition fingerprint (hash : string → Z) (h : Heap)
    (self : ObjectStateManager.t) : Z :=
  hash (String.concat ","
          (ObjectStateManager.tokens (__dict__ (h (__obj_ref self))))).

(** The transition table as the specification lists it. *)
Definition legal_transitions : list (OBJECT_STATES * OBJECT_STATES) :=
  [ (NEW, DIRTY); (NEW, DELETED); (CLEAN, DIRTY); (CLEAN, DELETED);
    (DIRTY, DELETED); (DIRTY, CLEAN) ].

Definition with_state (s : OBJECT_STATES) (self : ObjectStateManager.t)
    : ObjectStateManager.t :=
  {| __obj_ref := __obj_ref self; __state := s;
     __last_state_hash := __last_state_hash self |}.

Definition with_hash (v : Z) (self : ObjectStateManager.t)
    : ObjectStateManager.t :=
  {| __obj_ref := __obj_ref self; __state := __state self;
     __last_state_hash := v |}.

Definition calls_of (w : UnitOfWork.world) : list Repository.call :=
  Repository.calls (UnitOfWork.__repository w.2).

(** The repository call that an entity in a given observed state is due. *)
Definition dispatch (s : result OBJECT_STATES) (ent : ref)
    : list Repository.call :=
  match s with
  | Ok DIRTY => [Repository.replace ent]
  | Ok NEW => [Repository.add ent]
  | Ok DELETED => [Repository.remove ent]
  | Ok CLEAN => []
  | Raise _ => []
  end.

(** The entities of every class's live set, class by class. *)
Definition live_entities (w : UnitOfWork.world) : list ref :=
  flat_map (λ k, default [] (UnitOfWork.alist_lookup k
                               (UnitOfWork.__entity_set_map w.2)))
           (UnitOfWork.__entity_set_map w.2).*1.

(** The call an entity is due for the state observed in the world [w0]. *)
Definition due (hash : string → Z) (w0 : UnitOfWork.world) (ent : ref)
    : list Repository.call :=
  dispatch (UnitOfWork.state hash w0.1 ent) ent.

(** What holds between two turns of the loop, [done] being the entities
    already processed since the world was [w0]. *)
Record commit_inv (hash : string → Z) (w0 : UnitOfWork.world)
    (done : list ref)
    (w : UnitOfWork.world) : Prop := {
  inv_dict : ∀ y, __dict__ (w.1 y) = __dict__ (w0.1 y);
  inv_todo : ∀ x, x ∉ done → __everest__ (w.1 x) = __everest__ (w0.1 x);
  inv_done : ∀ x, x ∈ done →
    UnitOfWork.state hash w.1 x = Ok CLEAN ∧
    UnitOfWork.state hash w0.1 x = Ok DIRTY;
  inv_map : UnitOfWork.__entity_set_map w.2 = UnitOfWork.__entity_set_map w0.2
}.

(** [get_next_id] called for each class of [cs] in turn. *)
Fixpoint issue (cs : list entity_class) : M EntityIdGenerator.t (list Z) :=
  match cs with
  | [] => mret []
  | c :: cs' =>
      v ← EntityIdGenerator.get_next_id c;
      vs ← issue cs';
      mret (v :: vs)
  end.

(** The ids among [ids] that were issued for class [C]. *)
Definition issued_for (C : entity_class) (cs : list entity_class)
    (ids : list Z) : list Z :=
  (List.filter (λ p, bool_decide (p.1 = C)) (zip cs ids)).*2.

(** Every class either has no generator yet, or one suspended at the value
    recorded as the next id. *)
Definition gen_inv (g : EntityIdGenerator.t) : Prop :=
  ∀ C : entity_class,
    match EntityIdGenerator.__id_gen_map g !! C with
    | None => EntityIdGenerator.__next_id_map g !! C = None
    | Some ig =>
        ∃ n : Z, ig = id_generator.Yielded n ∧ (0 ≤ n)%Z ∧
                 EntityIdGenerator.__next_id_map g !! C = Some n
    end.

(** The cache of a class as the session sees it: the one in the cache
    manager, or the empty one that the first access creates. *)
Definition cache_of (entity_class : entity_class) (w : Session.world)
    : EntityCache.t :=
  default EntityCache.__init__
    (EntityCacheManager.__cache_map (Session.__cache_mgr w.2) !! entity_class).

(** * Entities and worlds to run the code on *)

(** A set order that keeps the order of insertion, and one that puts the
    newest member first. *)
Definition insertion_order : WeakSet_order :=
  {| placed x l := l ++ [x];
     placed_perm x l := Permutation_sym (Permutation_cons_append l x) |}.

Definition newest_first : WeakSet_order :=
  {| placed x l := x :: l;
     placed_perm x l := Permutation_refl (x :: l) |}.

(** Entities compared as [object] compares them, entities that are equal
    when they have the same id, and entities that are equal when they have
    the same id and the same slug. *)
Definition eq_of_object : entity_eq := λ _ _ _, false.

Definition eq_by_id : entity_eq :=
  λ h y x, bool_decide (ent_id (h y) = ent_id (h x)).

Definition eq_by_id_and_slug : entity_eq :=
  λ h y x, bool_decide (ent_id (h y) = ent_id (h x)
                        ∧ ent_slug (h y) = ent_slug (h x)).

Definition blank : Entity :=
  {| ent_id := None; ent_slug := None; __dict__ := []; __everest__ := None |}.

Definition empty_repository : Repository.t :=
  {| Repository.calls := []; Repository.id_gen := EntityIdGenerator.__init__ |}.

(** One entity of class Foo, object 0, with id 7 and an attribute [name]. *)
Definition foo : Entity :=
  {| ent_id := Some 7%Z; ent_slug := None;
     __dict__ := [("name", VStr "x")]; __everest__ := None |}.

(** [foo.__everest__ = ObjectStateManager(foo, initial_state)], done by
    hand, in a fresh unit of work. *)
Definition tracked (initial_state : OBJECT_STATES) : UnitOfWork.world :=
  let h : Heap := λ r, if decide (r = 0%nat) then foo else blank in
  match ObjectStateManager.__init__ py_hash h 0%nat initial_state with
  | Ok everest =>
      (<[0%nat := set_everest (Some everest) foo]> h,
       UnitOfWork.__init__ empty_repository)
  | Raise _ => (h, UnitOfWork.__init__ empty_repository)
  end.

(** ... then [uow.mark_deleted(Foo, foo)]. *)
Definition deleted_world : UnitOfWork.world :=
  (UnitOfWork.mark_deleted (order := insertion_order) py_hash "Foo" 0%nat
     (tracked NEW)).2.

(** ... or [uow.mark_dirty(Foo, foo)] on the entity loaded CLEAN. *)
Definition dirty_world : UnitOfWork.world :=
  (UnitOfWork.mark_dirty (order := insertion_order) py_hash "Foo" 0%nat
     (tracked CLEAN)).2.

(** The state holder of [foo] when loaded CLEAN. *)
Definition clean_holder : ObjectStateManager.t :=
  {| __obj_ref := 0%nat; __state := CLEAN;
     __last_state_hash := py_hash "name:x" |}.

(** [foo.name = "y"], assigned without any call to the unit of work. *)
Definition renamed : Heap :=
  <[0%nat := set_dict [("name", VStr "y")] ((tracked CLEAN).1 0%nat)]>
    (tracked CLEAN).1.

(** Two entities with the same public fields, set in either order.  On
    CPython 2.7 the attribute names [name] and [number] fall into the same
    slot of an instance dict, so that [iteritems()] yields the one assigned
    first before the other. *)
Definition name_first : list (string * pyval) :=
  [("name", VStr "x"); ("number", VInt 1)].

Definition number_first : list (string * pyval) :=
  [("number", VInt 1); ("name", VStr "x")].

(** Object 0 has [name] assigned first, object 1 [number]. *)
Definition two_orders : Heap :=
  λ r, set_dict (if decide (r = 0%nat) then name_first else number_first)
                blank.

(** Object 0 once its instance dict has been rebuilt in the other order. *)
Definition reordered : Heap := λ r, set_dict number_first blank.

Definition holder_of (r : ref) (v : Z) : ObjectStateManager.t :=
  {| __obj_ref := r; __state := CLEAN; __last_state_hash := v |}.

Definition with_seen : Heap :=
  λ _, set_dict [("name", VStr "x"); ("_seen", VInt 1)] blank.

Definition with_loaded : Heap :=
  λ _, set_dict [("_loaded", VNone); ("name", VStr "x")] blank.

Definition five : Entity :=
  {| ent_id := Some 5%Z; ent_slug := Some "five";
     __dict__ := []; __everest__ := None |}.

Definition five_again : Entity :=
  {| ent_id := Some 5%Z; ent_slug := None;
     __dict__ := []; __everest__ := None |}.

Definition slug_five : Entity :=
  {| ent_id := None; ent_slug := Some "five";
     __dict__ := []; __everest__ := None |}.

(** Object 0 has id 5 and slug "five", object 1 has id 5 too, object 2 has
    no id and the slug "five". *)
Definition fives : Heap :=
  λ r, match r with
       | 0%nat => five
       | 1%nat => five_again
       | 2%nat => slug_five
       | _ => blank
       end.

(** The cache of class Foo once object 0 has been loaded into it. *)
Definition loaded_cache : EntityCache.t :=
  (EntityCache.add fives 0%nat EntityCache.__init__).2.

Definition loaded_session : Session.world :=
  (fives,
   {| Session.__unit_of_work := UnitOfWork.__init__ empty_repository;
      Session.__cache_mgr :=
        {| EntityCacheManager.__cache_map := {[ "Foo" := loaded_cache ]} |} |}).

(** A session over a fresh unit of work, and an entity (object 0) with
    neither id nor slug. *)
Definition fresh_session : Session.world :=
  (λ _, blank, Session.__init__ (UnitOfWork.__init__ empty_repository)).

(** ... after [session.add(Foo, entity)] ... *)
Definition after_add : Session.world :=
  (Session.add "Foo" 0%nat fresh_session).2.

(** ... and [entity.slug = "x"]. *)
Definition slug_set : Session.world :=
  (<[0%nat := set_slug (Some "x") (after_add.1 0%nat)]> after_add.1,
   after_add.2).

(** An entity that is NEW in the live set of Foo, put there by hand, with
    the slug "x" that the cache does not know. *)
Definition new_by_hand : Session.world :=
  (<[0%nat := set_slug (Some "x") ((tracked NEW).1 0%nat)]> (tracked NEW).1,
   Session.__init__
     {| UnitOfWork.__repository := empty_repository;
        UnitOfWork.__entity_set_map := [("Foo", [0%nat])] |}).

(** * Vocabulary of the further properties *)

(** The live set of a class ([[]] when the class has none yet). *)
Definition live_set (cls : entity_class) (u : UnitOfWork.t) : list ref :=
  default [] (UnitOfWork.alist_lookup cls (UnitOfWork.__entity_set_map u)).

(** Every class is listed once and no live set lists an entity twice: the
    shape of a dict of sets. *)
Definition live_sets_are_sets (u : UnitOfWork.t) : Prop :=
  NoDup (UnitOfWork.__entity_set_map u).*1 ∧
  Forall (λ kv : entity_class * list ref, NoDup kv.2)
         (UnitOfWork.__entity_set_map u).

(** The entities are as they were. *)
Definition same_entities (h h' : Heap) : Prop := ∀ y, h' y = h y.

(** Only the state holder of [ent] may differ. *)
Definition same_but_holder (ent : ref) (h h' : Heap) : Prop :=
  (∀ y, y ≠ ent → h' y = h y) ∧
  ent_id (h' ent) = ent_id (h ent) ∧
  ent_slug (h' ent) = ent_slug (h ent) ∧
  __dict__ (h' ent) = __dict__ (h ent).

(** A call on a unit of work. *)
Inductive uow_call : Type :=
| call_register_new (cls : entity_class) (ent : ref)
| call_mark_clean (cls : entity_class) (ent : ref)
| call_mark_dirty (cls : entity_class) (ent : ref)
| call_mark_deleted (cls : entity_class) (ent : ref)
| call_commit
| call_rollback
| call_get (st : OBJECT_STATES) (cls : option entity_class).

(** The world after a call, whether it returned or raised. *)
Definition after_call (hash : string → Z) {order : WeakSet_order}
    (c : uow_call) (w : UnitOfWork.world) : UnitOfWork.world :=
  match c with
  | call_register_new cls ent => (UnitOfWork.register_new cls ent w).2
  | call_mark_clean cls ent => (UnitOfWork.mark_clean hash cls ent w).2
  | call_mark_dirty cls ent => (UnitOfWork.mark_dirty hash cls ent w).2
  | call_mark_deleted cls ent => (UnitOfWork.mark_deleted hash cls ent w).2
  | call_commit => (UnitOfWork.commit hash w).2
  | call_rollback => (UnitOfWork.rollback w).2
  | call_get st cls => (UnitOfWork.__object_iterator hash st cls w).2
  end.

Definition after_calls (hash : string → Z) {order : WeakSet_order}
    (cs : list uow_call) (w : UnitOfWork.world) : UnitOfWork.world :=
  foldl (λ w c, after_call hash c w) w cs.

(** What no call on a unit of work changes: the id, the slug and the
    attributes of every entity, the state holders that record DELETED, the
    id generator, and the repository calls made so far. *)
Record uow_frame (w w' : UnitOfWork.world) : Prop := {
  frame_id : ∀ y, ent_id (w'.1 y) = ent_id (w.1 y);
  frame_slug : ∀ y, ent_slug (w'.1 y) = ent_slug (w.1 y);
  frame_dict : ∀ y, __dict__ (w'.1 y) = __dict__ (w.1 y);
  frame_deleted : ∀ y t, __everest__ (w.1 y) = Some t → __state t = DELETED →
                         __everest__ (w'.1 y) = Some t;
  frame_id_gen : Repository.id_gen (UnitOfWork.__repository w'.2)
                 = Repository.id_gen (UnitOfWork.__repository w.2);
  frame_calls : ∃ l, calls_of w' = calls_of w ++ l
}.

(** The common shape of [mark_dirty], [mark_deleted] and, for an entity
    that has a state holder, [mark_clean]. *)
Definition marks_as (hash : string → Z) {order : WeakSet_order}
    (target : OBJECT_STATES)
    (cls : entity_class) (ent : ref) (w : UnitOfWork.world)
    (t : ObjectStateManager.t) (out : result unit * UnitOfWork.world)
    : Prop :=
  if bool_decide ((ObjectStateManager.__get_state hash w.1 t, target)
                    ∈ legal_transitions)
  then out.1 = Ok tt ∧
       same_but_holder ent w.1 out.2.1 ∧
       __everest__ (out.2.1 ent) = Some (with_state target t) ∧
       UnitOfWork.__repository out.2.2 = UnitOfWork.__repository w.2 ∧
       live_set cls out.2.2
         = (if bool_decide (ent ∈ live_set cls w.2) then live_set cls w.2
            else placed ent (live_set cls w.2)) ∧
       (∀ c, c ≠ cls → live_set c out.2.2 = live_set c w.2) ∧
       (live_sets_are_sets w.2 → live_sets_are_sets out.2.2)
  else (∃ msg, out.1 = Raise (ValueError msg)) ∧
       same_entities w.1 out.2.1 ∧
       out.2.2 = w.2.

(** The classes a query walks: all of them, or the one asked for. *)
Definition query_keys (cls : option entity_class) (u : UnitOfWork.t)
    : list entity_class :=
  match cls with
  | None => (UnitOfWork.__entity_set_map u).*1
  | Some c => [c]
  end.

(** The entities a query walks, class by class. *)
Definition query_entities (cls : option entity_class) (u : UnitOfWork.t)
    : list ref :=
  flat_map (λ k, live_set k u) (query_keys cls u).

(** The entities among [l] observed in state [st]. *)
Definition observed_in (hash : string → Z) (h : Heap) (st : OBJECT_STATES)
    (l : list ref) : list ref :=
  List.filter (λ ent, match UnitOfWork.state hash h ent with
                      | Ok s => bool_decide (s = st)
                      | Raise _ => false
                      end) l.

(** Every entry of the id map and of the slug map of a cache leads to an
    entity that carries that id, or that slug, and is in the list of
    entities. *)
Definition cache_indexed (h : Heap) (c : EntityCache.t) : Prop :=
  (∀ k r, EntityCache.__id_map c !! k = Some r →
          ent_id (h r) = Some k ∧ r ∈ EntityCache.__entities c) ∧
  (∀ s r, EntityCache.__slug_map c !! s = Some r →
          ent_slug (h r) = Some s ∧ r ∈ EntityCache.__entities c).

(** The state holder of [foo] when registered NEW by hand. *)
Definition new_holder : ObjectStateManager.t :=
  {| __obj_ref := 0%nat; __state := NEW;
     __last_state_hash := py_hash "name:x" |}.

(** [foo] with its NEW holder and an entity without holder (object 1) in
    the live set of Foo. *)
Definition untracked_world : UnitOfWork.world :=
  ((tracked NEW).1,
   {| UnitOfWork.__repository := empty_repository;
      UnitOfWork.__entity_set_map := [("Foo", [0%nat; 1%nat])] |}).

(** A session in which [foo], NEW and without slug, is in the live set of
    Foo and in no cache, after an entity loaded CLEAN (object 2) and before
    an entity without state holder (object 1). *)
Definition unslugged_new : Session.world :=
  (<[2%nat := set_everest (Some (holder_of 2%nat (py_hash "name:x"))) foo]>
     (tracked NEW).1,
   Session.__init__
     {| UnitOfWork.__repository := empty_repository;
        UnitOfWork.__entity_set_map := [("Foo", [2%nat; 0%nat; 1%nat])] |}).

(** * Properties *)

(** ** The state holder *)

Section ObjectStateManager_props.

Variable hash : string → Z.

Implicit Types (h : Heap) (self : ObjectStateManager.t).

Lemma get_state_cases h self :
  ObjectStateManager.__get_state hash h self =
    match __state self with
    | CLEAN => if decide (fingerprint hash h self = __last_state_hash self)
               then CLEAN else DIRTY
    | s => s
    end.
Proof.
  unfold ObjectStateManager.__get_state, fingerprint,
    ObjectStateManager.__get_state_string.
  destruct (__state self); simpl; try reflexivity.
  repeat case_decide; congruence.
Qed.

Lemma set_state_ok h self target :
  (ObjectStateManager.__get_state hash h self, target) ∈ legal_transitions →
  ObjectStateManager.__set_state hash h target self
    = (Ok tt, with_state target self).
Proof.
  intros Hin. unfold ObjectStateManager.__set_state.
  rewrite bool_decide_eq_true_2; [reflexivity | exact Hin].
Qed.

Lemma set_state_raise h self target :
  (ObjectStateManager.__get_state hash h self, target) ∉ legal_transitions →
  ObjectStateManager.__set_state hash h target self
    = (Raise (ValueError ("Invalid state transition "
                          +:+ state_name (__state self) +:+ " -> "
                          +:+ state_name target +:+ ".")), self).
Proof.
  intros Hin. unfold ObjectStateManager.__set_state.
  rewrite bool_decide_eq_false_2; [reflexivity | exact Hin].
Qed.

(** C2. Setting the state of a state holder to [target] succeeds exactly
    when the pair of the observed (dirty-checked) state and [target] is one
    of NEW→DIRTY, NEW→DELETED, CLEAN→DIRTY, CLEAN→DELETED, DIRTY→DELETED,
    DIRTY→CLEAN, and then records [target]; for every other pair it raises
    the invalid-transition [ValueError] and leaves the state holder as it
    was. *)
Theorem set_state_succeeds_iff_legal h self target :
  let source := ObjectStateManager.__get_state hash h self in
  let outcome := ObjectStateManager.__set_state hash h target self in
  ((source, target) ∈ legal_transitions ↔ outcome.1 = Ok tt) ∧
  ((source, target) ∈ legal_transitions →
     outcome = (Ok tt, with_state target self)) ∧
  ((source, target) ∉ legal_transitions →
     ∃ msg, outcome = (Raise (ValueError msg), self)).
Proof.
  intros source outcome. subst source outcome.
  destruct (decide ((ObjectStateManager.__get_state hash h self, target)
                      ∈ legal_transitions)) as [Hin|Hout].
  - rewrite (set_state_ok _ _ _ Hin). split_and!; [tauto | tauto | tauto].
  - rewrite (set_state_raise _ _ _ Hout).
    split_and!; [ | tauto | eauto ].
    split; [tauto | discriminate].
Qed.

(** The sixteen pairs, one by one. *)
Lemma legal_transitions_table (source target : OBJECT_STATES) :
  (source, target) ∈ legal_transitions ↔
    match source, target with
    | NEW, DIRTY | NEW, DELETED | CLEAN, DIRTY | CLEAN, DELETED
    | DIRTY, DELETED | DIRTY, CLEAN => True
    | _, _ => False
    end.
Proof.
  unfold legal_transitions.
  destruct source, target; split; intros H; try exact I; try tauto;
    try (repeat (apply elem_of_cons in H as [H|H]; [discriminate H|]);
         by apply elem_of_nil in H);
    repeat first [ by apply list_elem_of_here | apply list_elem_of_further ].
Qed.

(** C3. For a state holder whose recorded state is CLEAN, reading the state
    recomputes the fingerprint over the public fields of the tracked entity
    and yields DIRTY exactly when it differs from the stored one (the one
    taken when the holder was created or last reset), CLEAN otherwise; any
    other recorded state is returned as it is. *)
Theorem get_state_dirty_check h self :
  (__state self = CLEAN →
     (ObjectStateManager.__get_state hash h self = DIRTY
        ↔ fingerprint hash h self ≠ __last_state_hash self) ∧
     (ObjectStateManager.__get_state hash h self = CLEAN
        ↔ fingerprint hash h self = __last_state_hash self)) ∧
  (__state self ≠ CLEAN →
     ObjectStateManager.__get_state hash h self = __state self) ∧
  (∀ h0 self0,
     ObjectStateManager.reset_state hash h0 self0 = (Ok tt, self) →
     __state self = CLEAN ∧
     __last_state_hash self = fingerprint hash h0 self) ∧
  (∀ h0 tracked_object,
     ObjectStateManager.__init__ hash h0 tracked_object CLEAN = Ok self →
     __state self = CLEAN ∧
     __last_state_hash self = fingerprint hash h0 self).
Proof.
  rewrite get_state_cases. split_and!.
  - intros ->. case_decide; split; split; intros; congruence.
  - destruct (__state self); congruence.
  - intros h0 self0. unfold ObjectStateManager.reset_state, mbind, M_bind.
    destruct (ObjectStateManager.__set_state hash h0 CLEAN self0)
      as [[[]|e] s1] eqn:E; [|discriminate].
    unfold ObjectStateManager.__set_state in E.
    case_bool_decide; [|discriminate]. inversion E; subst s1.
    unfold modify. intros [= <-]. split; reflexivity.
  - intros h0 o. unfold ObjectStateManager.__init__.
    case_bool_decide; [|discriminate]. intros [= <-]. split; reflexivity.
Qed.

Lemma reset_state_cases h self :
  ObjectStateManager.reset_state hash h self =
    if decide (ObjectStateManager.__get_state hash h self = DIRTY)
    then (Ok tt, with_hash (fingerprint hash h self) (with_state CLEAN self))
    else (Raise (ValueError ("Invalid state transition "
                             +:+ state_name (__state self) +:+ " -> "
                             +:+ state_name CLEAN +:+ ".")), self).
Proof.
  unfold ObjectStateManager.reset_state, mbind, M_bind.
  case_decide as Hs.
  - rewrite set_state_ok; [reflexivity|].
    rewrite Hs. apply legal_transitions_table. exact I.
  - rewrite set_state_raise; [reflexivity|].
    intros Hin%legal_transitions_table.
    destruct (ObjectStateManager.__get_state hash h self); tauto.
Qed.

(** The fingerprint is a function of the public fields in iteration order. *)
Lemma tokens_filter (d : list (string * pyval)) :
  ObjectStateManager.tokens
    (List.filter (λ kv, negb (startswith_underscore kv.1)) d)
  = ObjectStateManager.tokens d.
Proof.
  unfold ObjectStateManager.tokens. f_equal.
  induction d as [|kv d IH]; simpl; [reflexivity|].
  destruct (negb (startswith_underscore kv.1)) eqn:E; simpl; rewrite ?E, IH;
    reflexivity.
Qed.

End ObjectStateManager_props.

(** ** The unit of work *)

(** Unfolds the plumbing of the state monad. *)
Ltac run_M :=
  unfold mbind, M_bind, mret, M_ret, Py.gets, Py.get, Py.modify, Py.raise,
    UnitOfWork.lift_result in *; simpl in *.

Lemma for_each_app {S X} (l1 l2 : list X) (body : X → M S unit) (s : S) :
  for_each (l1 ++ l2) body s =
    match for_each l1 body s with
    | (Ok _, s1) => for_each l2 body s1
    | (Raise e, s1) => (Raise e, s1)
    end.
Proof.
  revert s. induction l1 as [|x l1 IH]; intros s; simpl; [reflexivity|].
  run_M. destruct (body x s) as [[[]|e] s1]; [apply IH | reflexivity].
Qed.

Lemma alist_lookup_keys {V} (m : list (entity_class * V)) k :
  k ∈ m.*1 → is_Some (UnitOfWork.alist_lookup k m).
Proof.
  induction m as [|[k' v] m IH]; simpl; intros Hin.
  - by apply elem_of_nil in Hin.
  - case_decide; [eauto|]. apply elem_of_cons in Hin as [->|Hin]; [done|].
    by apply IH.
Qed.

Lemma live_entities_nodup (w : UnitOfWork.world) :
  NoDup (UnitOfWork.__entity_set_map w.2).*1 →
  live_entities w = concat (UnitOfWork.__entity_set_map w.2).*2.
Proof.
  unfold live_entities. generalize (UnitOfWork.__entity_set_map w.2).
  intros m Hnd.
  assert (∀ m' : list (entity_class * list ref),
    (∀ k v, (k, v) ∈ m' → UnitOfWork.alist_lookup k m = Some v) →
    flat_map (λ k, default [] (UnitOfWork.alist_lookup k m)) m'.*1
      = concat m'.*2) as Hgen.
  { induction m' as [|[k v] m' IH]; simpl; intros Hm; [reflexivity|].
    rewrite (Hm k v) by apply list_elem_of_here. simpl. f_equal.
    apply IH. intros k' v' Hin. apply Hm. by apply list_elem_of_further. }
  apply Hgen. clear Hgen.
  induction m as [|[k v] m IH]; intros k' v' Hin.
  - by apply elem_of_nil in Hin.
  - simpl in *. inversion Hnd as [|? ? Hk Hnd']; subst.
    specialize (IH Hnd').
    apply elem_of_cons in Hin as [[= -> ->]|Hin].
    + by rewrite decide_True.
    + rewrite decide_False; [by apply IH|].
      intros <-. apply Hk. apply list_elem_of_fmap. by exists (k, v').
Qed.

Section UnitOfWork_props.

Variable hash : string → Z.

Implicit Types (h : Heap) (w : UnitOfWork.world) (ent : ref).

Lemma state_frame h h' ent :
  __everest__ (h' ent) = __everest__ (h ent) →
  (∀ y, __dict__ (h' y) = __dict__ (h y)) →
  UnitOfWork.state hash h' ent = UnitOfWork.state hash h ent.
Proof.
  intros He Hd. unfold UnitOfWork.state. rewrite He.
  destruct (__everest__ (h ent)) as [t|]; [|reflexivity].
  f_equal. rewrite !get_state_cases. unfold fingerprint. by rewrite Hd.
Qed.

(** One turn of the loop of [commit]: the call the entity is due is made,
    then the state holder is reset, which goes through if the entity was
    observed DIRTY. *)
Lemma commit_entity_spec ent w :
  let out := UnitOfWork.commit_entity hash ent w in
  UnitOfWork.__entity_set_map out.2.2 = UnitOfWork.__entity_set_map w.2 ∧
  Repository.id_gen (UnitOfWork.__repository out.2.2)
    = Repository.id_gen (UnitOfWork.__repository w.2) ∧
  calls_of out.2 = calls_of w ++ dispatch (UnitOfWork.state hash w.1 ent) ent ∧
  (∀ x, x ≠ ent → out.2.1 x = w.1 x) ∧
  (∀ y, __dict__ (out.2.1 y) = __dict__ (w.1 y)) ∧
  (∀ y, ent_id (out.2.1 y) = ent_id (w.1 y)) ∧
  (∀ y, ent_slug (out.2.1 y) = ent_slug (w.1 y)) ∧
  match UnitOfWork.state hash w.1 ent with
  | Ok DIRTY => out.1 = Ok tt ∧ UnitOfWork.state hash out.2.1 ent = Ok CLEAN
  | Ok _ => (∃ msg, out.1 = Raise (ValueError msg)) ∧
            __everest__ (out.2.1 ent) = __everest__ (w.1 ent)
  | Raise e => out.1 = Raise e ∧
               __everest__ (out.2.1 ent) = __everest__ (w.1 ent)
  end.
Proof.
  destruct w as [h u]. simpl.
  unfold UnitOfWork.commit_entity, UnitOfWork.ent_state, UnitOfWork.state,
    UnitOfWork.on_everest, UnitOfWork.on_repository, Repository.record,
    calls_of.
  run_M.
  destruct (__everest__ (h ent)) as [t|] eqn:Et; simpl.
  2:{ rewrite app_nil_r. split_and!; auto. }
  assert (∀ (t' : ObjectStateManager.t) y,
    __dict__ ((<[ent := set_everest (Some t') (h ent)]> h) y) = __dict__ (h y))
    as Hdict.
  { intros t' y. destruct (decide (y = ent)) as [->|Hne].
    - by rewrite fn_lookup_insert.
    - by rewrite fn_lookup_insert_ne. }
  assert (∀ (t' : ObjectStateManager.t) y,
    ent_id ((<[ent := set_everest (Some t') (h ent)]> h) y) = ent_id (h y))
    as Hid.
  { intros t' y. destruct (decide (y = ent)) as [->|Hne].
    - by rewrite fn_lookup_insert.
    - by rewrite fn_lookup_insert_ne. }
  assert (∀ (t' : ObjectStateManager.t) y,
    ent_slug ((<[ent := set_everest (Some t') (h ent)]> h) y) = ent_slug (h y))
    as Hslug.
  { intros t' y. destruct (decide (y = ent)) as [->|Hne].
    - by rewrite fn_lookup_insert.
    - by rewrite fn_lookup_insert_ne. }
  destruct (ObjectStateManager.__get_state hash h t) eqn:Es; simpl;
    repeat (rewrite ?Et, ?Es; simpl);
    rewrite reset_state_cases, Es; simpl; rewrite ?app_nil_r.
  all: split_and!; auto.
  all: try (by intros x Hx; rewrite fn_lookup_insert_ne).
  all: try (by eexists).
  all: try (by rewrite fn_lookup_insert).
  rewrite fn_lookup_insert. simpl. f_equal.
  rewrite get_state_cases. simpl.
  rewrite decide_True; [reflexivity|].
  unfold fingerprint. simpl. f_equal. f_equal. f_equal.
  destruct (decide (__obj_ref t = ent)) as [->|Hne].
  - by rewrite fn_lookup_insert.
  - by rewrite fn_lookup_insert_ne.
Qed.

Lemma commit_inv_start w : commit_inv hash w [] w.
Proof.
  split; try done. intros x Hx. by apply elem_of_nil in Hx.
Qed.

Lemma for_each_commit_entity_map (l : list ref) w :
  UnitOfWork.__entity_set_map
    (for_each l (UnitOfWork.commit_entity hash) w).2.2
  = UnitOfWork.__entity_set_map w.2.
Proof.
  revert w. induction l as [|e l IH]; intros w; simpl; [reflexivity|].
  run_M. pose proof (commit_entity_spec e w) as (Hm & _). simpl in Hm.
  destruct (UnitOfWork.commit_entity hash e w) as [[[]|err] w1]; simpl in *.
  - by rewrite IH.
  - exact Hm.
Qed.

Lemma for_each_commit_entity w0 (todo : list ref) :
  ∀ (done : list ref) w, commit_inv hash w0 done w →
  let out := for_each todo (UnitOfWork.commit_entity hash) w in
  (∃ n, calls_of out.2 = calls_of w ++ flat_map (due hash w0) (take n todo)) ∧
  (out.1 = Ok tt →
     calls_of out.2 = calls_of w ++ flat_map (due hash w0) todo ∧
     commit_inv hash w0 (done ++ todo) out.2).
Proof.
  induction todo as [|e rest IH]; intros done w Hinv; simpl.
  { split; [exists 0%nat; by rewrite app_nil_r|].
    intros _. by rewrite !app_nil_r. }
  run_M.
  pose proof (commit_entity_spec e w) as (Hm & _ & Hc & Hother & Hd & _ & _ & Hst).
  simpl in Hm, Hc, Hother, Hd, Hst.
  destruct (decide (e ∈ done)) as [Hin|Hnin].
  - (* processed before: observed CLEAN now, no call, the reset raises *)
    destruct (inv_done _ _ _ _ Hinv e Hin) as [Hclean _].
    rewrite Hclean in Hst, Hc. destruct Hst as [[msg Hr] _].
    destruct (UnitOfWork.commit_entity hash e w) as [[[]|err] w1];
      simpl in *; [discriminate Hr|].
    split; [|discriminate]. exists 0%nat. simpl. exact Hc.
  - assert (UnitOfWork.state hash w.1 e = UnitOfWork.state hash w0.1 e) as Hsame.
    { apply state_frame; [by apply (inv_todo _ _ _ _ Hinv)|].
      apply (inv_dict _ _ _ _ Hinv). }
    assert (flat_map (due hash w0) (take 1 (e :: rest)) = due hash w0 e)
      as Hone.
    { simpl. by rewrite app_nil_r. }
    destruct (UnitOfWork.commit_entity hash e w) as [[[]|err] w1] eqn:E;
      simpl in *.
    2:{ split; [|discriminate]. exists 1%nat. simpl. rewrite Hone.
        unfold due. by rewrite <- Hsame. }
    assert (UnitOfWork.state hash w.1 e = Ok DIRTY ∧
            UnitOfWork.state hash w1.1 e = Ok CLEAN) as [Hdirty Hclean].
    { destruct (UnitOfWork.state hash w.1 e) as [[]|err];
        destruct Hst as [Hr Hst]; try discriminate Hr;
        try (by destruct Hr); by split. }
    assert (commit_inv hash w0 (done ++ [e]) w1) as Hinv1.
    { split.
      - intros y. rewrite Hd. apply (inv_dict _ _ _ _ Hinv).
      - intros x Hx. rewrite elem_of_app, list_elem_of_singleton in Hx.
        rewrite Hother by tauto. apply (inv_todo _ _ _ _ Hinv). tauto.
      - intros x Hx. rewrite elem_of_app, list_elem_of_singleton in Hx.
        destruct Hx as [Hx| ->].
        + destruct (inv_done _ _ _ _ Hinv x Hx) as [H1 H2]. split; [|exact H2].
          rewrite <- H1. apply state_frame; [|exact Hd].
          rewrite Hother; [reflexivity|]. intros ->. contradiction.
        + split; [exact Hclean|]. by rewrite <- Hsame.
      - rewrite Hm. apply (inv_map _ _ _ _ Hinv). }
    destruct (IH _ _ Hinv1) as [[n Hn] Hok].
    assert (calls_of w1 = calls_of w ++ due hash w0 e) as Hc1.
    { unfold due. by rewrite <- Hsame. }
    split.
    + exists (S n). simpl. rewrite Hn, Hc1. by rewrite app_assoc.
    + intros Hr. destruct (Hok Hr) as [Hcalls Hinv'].
      rewrite Hcalls, Hc1, <- !app_assoc in *. simpl in Hinv'.
      split; [reflexivity | exact Hinv'].
Qed.

(** [commit] walks the live sets without touching them, so its two loops
    amount to one loop over [live_entities]. *)
Lemma commit_unfold w :
  UnitOfWork.commit hash w
  = for_each (live_entities w) (UnitOfWork.commit_entity hash) w.
Proof.
  unfold UnitOfWork.commit, live_entities. run_M.
  assert (∀ (ks : list entity_class) (w1 : UnitOfWork.world),
    UnitOfWork.__entity_set_map w1.2 = UnitOfWork.__entity_set_map w.2 →
    (∀ k, k ∈ ks → k ∈ (UnitOfWork.__entity_set_map w.2).*1) →
    for_each ks
      (λ ent_cls : entity_class,
         UnitOfWork.entity_set ent_cls ≫= λ ents,
         for_each ents (UnitOfWork.commit_entity hash)) w1
    = for_each
        (flat_map (λ k, default [] (UnitOfWork.alist_lookup k
                                      (UnitOfWork.__entity_set_map w.2))) ks)
        (UnitOfWork.commit_entity hash) w1) as Hgen.
  { induction ks as [|k ks IH]; intros w1 Hmap Hks; simpl; [reflexivity|].
    rewrite for_each_app. run_M. unfold UnitOfWork.entity_set at 1.
    rewrite Hmap.
    destruct (alist_lookup_keys (UnitOfWork.__entity_set_map w.2) k)
      as [s Hs]; [apply Hks, list_elem_of_here|].
    rewrite Hs. simpl.
    pose proof (for_each_commit_entity_map s w1) as Hm1.
    destruct (for_each s (UnitOfWork.commit_entity hash) w1)
      as [[[]|err] w2]; [|reflexivity].
    apply IH; [by rewrite <- Hmap | ].
    intros k' Hk'. apply Hks. by apply list_elem_of_further. }
  apply Hgen; [reflexivity | auto].
Qed.

Lemma state_after_commit_entity (e x : ref) w :
  x ≠ e →
  UnitOfWork.state hash (UnitOfWork.commit_entity hash e w).2.1 x
  = UnitOfWork.state hash w.1 x.
Proof.
  intros Hne.
  pose proof (commit_entity_spec e w) as (_ & _ & _ & Hoth & Hd & _).
  simpl in *. apply state_frame; [by rewrite Hoth | exact Hd].
Qed.

Lemma for_each_commit_entity_ok (l : list ref) w :
  (for_each l (UnitOfWork.commit_entity hash) w).1 = Ok tt
  ↔ NoDup l ∧ ∀ e, e ∈ l → UnitOfWork.state hash w.1 e = Ok DIRTY.
Proof.
  revert w. induction l as [|e l IH]; intros w; simpl.
  { split; [intros _; split; [constructor|]|done].
    intros e He. by apply elem_of_nil in He. }
  run_M.
  pose proof (commit_entity_spec e w) as (_ & _ & _ & _ & _ & _ & _ & Hst).
  pose proof (λ x, state_after_commit_entity e x w) as Hfr.
  destruct (UnitOfWork.commit_entity hash e w) as [r w1] eqn:E.
  simpl in *. rewrite list.NoDup_cons.
  destruct (UnitOfWork.state hash w.1 e) as [s|err] eqn:Es.
  2:{ destruct Hst as [-> _]. simpl. split; [done|].
      intros [_ Hall]. specialize (Hall e (list_elem_of_here _ _)).
      congruence. }
  destruct (decide (s = DIRTY)) as [->|Hs].
  - destruct Hst as [-> Hclean]. rewrite IH. split.
    + intros [Hnd Hall].
      assert (e ∉ l) as Hnin.
      { intros Hin. specialize (Hall e Hin). congruence. }
      split_and!; try done. intros x [->|Hx]%elem_of_cons; [done|].
      rewrite <- Hfr; [by apply Hall|]. by intros ->.
    + intros [[Hnin Hnd] Hall]. split; [done|]. intros x Hx.
      rewrite Hfr; [|by intros ->].
      by apply Hall, list_elem_of_further.
  - assert (∃ msg, r = Raise (ValueError msg)) as [msg ->]
      by (by destruct s; destruct Hst as [? _]).
    simpl. split; [done|].
    intros [_ Hall]. specialize (Hall e (list_elem_of_here _ _)).
    congruence.
Qed.

(** What the entities observed DIRTY are due is [repository.replace]. *)
Lemma due_dirty w (l : list ref) :
  (∀ x, x ∈ l → UnitOfWork.state hash w.1 x = Ok DIRTY) →
  flat_map (due hash w) l = Repository.replace <$> l.
Proof.
  induction l as [|e l IH]; simpl; intros Hall; [reflexivity|].
  unfold due at 1. rewrite (Hall e) by apply list_elem_of_here. simpl.
  f_equal. apply IH. intros x Hx. by apply Hall, list_elem_of_further.
Qed.

(** C1 does not hold of [commit]: it stops at the first entity that is not
    observed DIRTY.  With [l1] the entities walked before it, all DIRTY, and
    [ent] that entity, observed NEW, CLEAN or DELETED: [commit] has called
    [repository.replace] for the entities of [l1], which are CLEAN
    afterwards, makes the call [ent] is due ([add] for NEW, [remove] for
    DELETED, none for CLEAN), and then raises the [ValueError] of
    [reset_state].  [ent] is left in the state it had, NEW or DELETED
    included, the entities after it are neither dispatched nor reset, and
    every live set is as before: no DELETED entity has been dropped. *)
Theorem commit_stops_at_first_not_dirty w (l1 l2 : list ref) ent
    (s : OBJECT_STATES) :
  live_entities w = l1 ++ ent :: l2 →
  NoDup l1 →
  (∀ x, x ∈ l1 → UnitOfWork.state hash w.1 x = Ok DIRTY) →
  UnitOfWork.state hash w.1 ent = Ok s →
  s ≠ DIRTY →
  let out := UnitOfWork.commit hash w in
  (∃ msg, out.1 = Raise (ValueError msg)) ∧
  calls_of out.2
    = calls_of w ++ (Repository.replace <$> l1) ++ dispatch (Ok s) ent ∧
  UnitOfWork.__entity_set_map out.2.2 = UnitOfWork.__entity_set_map w.2 ∧
  UnitOfWork.state hash out.2.1 ent = Ok s ∧
  (∀ x, x ∈ l1 → UnitOfWork.state hash out.2.1 x = Ok CLEAN) ∧
  (∀ x, x ∉ l1 →
     UnitOfWork.state hash out.2.1 x = UnitOfWork.state hash w.1 x).
Proof.
  intros Hlive Hnd Hdirty Hs Hne. cbv zeta.
  rewrite commit_unfold, Hlive, for_each_app.
  assert (ent ∉ l1) as Hnin.
  { intros Hin. rewrite (Hdirty ent Hin) in Hs. congruence. }
  destruct (for_each_commit_entity w l1 [] w (commit_inv_start w))
    as [_ Hok].
  pose proof (proj2 (for_each_commit_entity_ok l1 w) (conj Hnd Hdirty)) as Hr.
  destruct (Hok Hr) as [Hcalls Hinv]. clear Hok. simpl in Hinv.
  rewrite (due_dirty w l1 Hdirty) in Hcalls.
  destruct (for_each l1 (UnitOfWork.commit_entity hash) w) as [r w1].
  simpl in Hr, Hcalls, Hinv. subst r. simpl. run_M.
  assert (∀ x, x ∉ l1 →
            UnitOfWork.state hash w1.1 x = UnitOfWork.state hash w.1 x)
    as Hkept.
  { intros x Hx. apply state_frame; [by apply (inv_todo _ _ _ _ Hinv)|].
    apply (inv_dict _ _ _ _ Hinv). }
  pose proof (commit_entity_spec ent w1)
    as (Hm & _ & Hc & Hoth & Hd & _ & _ & Hst).
  pose proof (λ x, state_after_commit_entity ent x w1) as Hfr.
  simpl in Hm, Hc, Hoth, Hd, Hst. rewrite (Hkept ent Hnin), Hs in Hst, Hc.
  assert ((∃ msg, (UnitOfWork.commit_entity hash ent w1).1
                  = Raise (ValueError msg)) ∧
          __everest__ ((UnitOfWork.commit_entity hash ent w1).2.1 ent)
          = __everest__ (w1.1 ent)) as [[msg Hraise] Hev]
    by (by destruct s).
  assert (UnitOfWork.state hash (UnitOfWork.commit_entity hash ent w1).2.1 ent
          = Ok s) as Hent.
  { rewrite <- Hs, <- (Hkept ent Hnin). by apply state_frame. }
  destruct (UnitOfWork.commit_entity hash ent w1) as [r2 w2].
  simpl in *. subst r2. simpl. split_and!.
  - by eexists.
  - by rewrite Hc, Hcalls, <- app_assoc.
  - rewrite Hm. apply (inv_map _ _ _ _ Hinv).
  - exact Hent.
  - intros x Hx. rewrite Hfr by (by intros ->).
    by destruct (inv_done _ _ _ _ Hinv x Hx).
  - intros x Hx. destruct (decide (x = ent)) as [->|Hxe].
    + by rewrite Hent.
    + rewrite Hfr by done. by apply Hkept.
Qed.

End UnitOfWork_props.

(** ** Concrete runs *)

(** C1, at a unit of work whose one entity has been marked DELETED:
    [commit] calls [repository.remove] for it and raises from [reset_state];
    the entity is still in the live set of its class, still DELETED. *)
Lemma commit_stops_at_first_not_dirty_witness :
  (UnitOfWork.commit py_hash deleted_world).1
    = Raise (ValueError "Invalid state transition DELETED -> CLEAN.") ∧
  calls_of (UnitOfWork.commit py_hash deleted_world).2
    = [Repository.remove 0%nat] ∧
  live_entities (UnitOfWork.commit py_hash deleted_world).2 = [0%nat] ∧
  UnitOfWork.state py_hash (UnitOfWork.commit py_hash deleted_world).2.1 0%nat
    = Ok DELETED.
Proof.
  destruct (commit_stops_at_first_not_dirty py_hash deleted_world [] []
              0%nat DELETED) as (_ & H2 & H3 & H4 & _).
  - vm_compute. reflexivity.
  - constructor.
  - intros x Hx. by apply elem_of_nil in Hx.
  - vm_compute. reflexivity.
  - discriminate.
  - split_and!.
    + vm_compute. reflexivity.
    + rewrite H2. vm_compute. reflexivity.
    + unfold live_entities. rewrite H3. vm_compute. reflexivity.
    + exact H4.
Defined.

(** C2, at a concrete state holder: NEW → DIRTY goes through. *)
Lemma set_state_succeeds_iff_legal_witness :
  (NEW, DIRTY) ∈ legal_transitions ∧
  ∀ everest, __everest__ ((tracked NEW).1 0%nat) = Some everest →
    ObjectStateManager.__set_state py_hash (tracked NEW).1 DIRTY everest
      = (Ok tt, with_state DIRTY everest).
Proof.
  assert ((NEW, DIRTY) ∈ legal_transitions) as Hin
    by (apply legal_transitions_table; exact I).
  split; [exact Hin|]. intros everest [= <-].
  apply (set_state_succeeds_iff_legal py_hash (tracked NEW).1).
  exact Hin.
Defined.

(** C3, at a concrete state holder: loaded CLEAN, then renamed. *)
Lemma get_state_dirty_check_witness :
  __everest__ ((tracked CLEAN).1 0%nat) = Some clean_holder ∧
  ObjectStateManager.__get_state py_hash (tracked CLEAN).1 clean_holder
    = CLEAN ∧
  ObjectStateManager.__get_state py_hash renamed clean_holder = DIRTY.
Proof.
  assert (__state clean_holder = CLEAN) as Hclean by reflexivity.
  split; [vm_compute; reflexivity|].
  split.
  - destruct (get_state_dirty_check py_hash (tracked CLEAN).1 clean_holder)
      as (H & _).
    destruct (H Hclean) as [_ Hc]. apply Hc. vm_compute. reflexivity.
  - destruct (get_state_dirty_check py_hash renamed clean_holder) as (H & _).
    destruct (H Hclean) as [Hd _]. apply Hd. vm_compute. discriminate.
Defined.

(** C4 does not hold of [reset_state]: resetting a state holder that is
    NEW, DELETED or CLEAN and unmodified raises the invalid-transition
    error of [__set_state] and changes nothing; only a state holder
    observed DIRTY is reset. *)
Lemma reset_state_raises_unless_dirty :
  let h := (tracked NEW).1 in
  let holder s := {| __obj_ref := 0%nat; __state := s;
                     __last_state_hash := py_hash "name:x" |} in
  ObjectStateManager.reset_state py_hash h (holder NEW)
    = (Raise (ValueError "Invalid state transition NEW -> CLEAN."),
       holder NEW) ∧
  ObjectStateManager.reset_state py_hash h (holder DELETED)
    = (Raise (ValueError "Invalid state transition DELETED -> CLEAN."),
       holder DELETED) ∧
  ObjectStateManager.reset_state py_hash h (holder CLEAN)
    = (Raise (ValueError "Invalid state transition CLEAN -> CLEAN."),
       holder CLEAN) ∧
  ObjectStateManager.reset_state py_hash h (holder DIRTY)
    = (Ok tt, holder CLEAN).
Proof. vm_compute. split_and!; reflexivity. Qed.

(** C9, counterexample: the same name/value pairs in the other iteration
    order give another fingerprint, and a state holder created on the one
    order observes DIRTY on the other. *)
Lemma fingerprint_depends_on_field_order :
  name_first ≡ₚ number_first ∧
  Z.land (py_hash "name") 7 = Z.land (py_hash "number") 7 ∧
  fingerprint py_hash two_orders (holder_of 0%nat 0)
    ≠ fingerprint py_hash two_orders (holder_of 1%nat 0) ∧
  ObjectStateManager.__init__ py_hash two_orders 0%nat CLEAN
    = Ok (holder_of 0%nat (py_hash "name:x,number:1")) ∧
  ObjectStateManager.__get_state py_hash two_orders
    (holder_of 0%nat (py_hash "name:x,number:1")) = CLEAN ∧
  ObjectStateManager.__get_state py_hash reordered
    (holder_of 0%nat (py_hash "name:x,number:1")) = DIRTY.
Proof.
  split; [apply perm_swap|].
  split; [vm_compute; reflexivity|].
  split; [vm_compute; discriminate|].
  split; [vm_compute; reflexivity|].
  split; vm_compute; reflexivity.
Qed.

(** C9 (amended). The fingerprint is a function of the public name/value
    pairs in the order in which the instance dict yields them: two entities
    whose public pairs agree in that order have the same fingerprint,
    whatever their other attributes, and a state holder created CLEAN on
    the one observes CLEAN on the other. *)
Theorem fingerprint_of_public_fields_in_order (hash : string → Z)
    (h h' : Heap) (self self' : ObjectStateManager.t) :
  List.filter (λ kv, negb (startswith_underscore kv.1))
              (__dict__ (h (__obj_ref self)))
  = List.filter (λ kv, negb (startswith_underscore kv.1))
                (__dict__ (h' (__obj_ref self'))) →
  hash (ObjectStateManager.__get_state_string h self)
    = hash (ObjectStateManager.__get_state_string h' self') ∧
  (∀ everest,
     ObjectStateManager.__init__ hash h (__obj_ref self) CLEAN = Ok everest →
     __obj_ref self' = __obj_ref self →
     ObjectStateManager.__get_state hash h' everest = CLEAN).
Proof.
  intros Hpub.
  assert (ObjectStateManager.tokens (__dict__ (h (__obj_ref self)))
          = ObjectStateManager.tokens (__dict__ (h' (__obj_ref self')))) as Ht.
  { by rewrite <- tokens_filter, Hpub, tokens_filter. }
  split.
  - unfold ObjectStateManager.__get_state_string. by rewrite Ht.
  - intros everest Hinit Href. unfold ObjectStateManager.__init__ in Hinit.
    case_bool_decide; [|discriminate]. injection Hinit as <-.
    rewrite get_state_cases. simpl. rewrite decide_True; [reflexivity|].
    unfold fingerprint, ObjectStateManager.__get_state_string. simpl.
    by rewrite Ht, Href.
Qed.

Lemma fingerprint_of_public_fields_in_order_witness :
  py_hash (ObjectStateManager.__get_state_string with_seen (holder_of 0%nat 0))
  = py_hash (ObjectStateManager.__get_state_string with_loaded
               (holder_of 0%nat 0)).
Proof.
  apply (fingerprint_of_public_fields_in_order py_hash with_seen with_loaded
           (holder_of 0%nat 0) (holder_of 0%nat 0)).
  reflexivity.
Defined.

(** ** The id generator *)

Lemma gen_inv_init : gen_inv EntityIdGenerator.__init__.
Proof. intros C. simpl. by rewrite !lookup_empty. Qed.

Lemma get_next_id_spec (C : entity_class) (g : EntityIdGenerator.t) :
  gen_inv g →
  ∃ g', EntityIdGenerator.get_next_id C g
          = (Ok (EntityIdGenerator.get_current_id C g), g') ∧
        gen_inv g' ∧
        (0 ≤ EntityIdGenerator.get_current_id C g)%Z ∧
        EntityIdGenerator.get_current_id C g'
          = (EntityIdGenerator.get_current_id C g + 1)%Z ∧
        ∀ C', C' ≠ C →
          EntityIdGenerator.get_current_id C' g'
            = EntityIdGenerator.get_current_id C' g.
Proof.
  intros Hinv. pose proof (Hinv C) as HC.
  unfold EntityIdGenerator.get_next_id, EntityIdGenerator.__get_id_generator,
    EntityIdGenerator.on_generator, EntityIdGenerator.set_next_id,
    EntityIdGenerator.get_current_id.
  run_M.
  destruct (EntityIdGenerator.__id_gen_map g !! C) as [ig|] eqn:Eg.
  - destruct HC as (n & -> & Hn & Hnext). rewrite Hnext. simpl.
    replace (n + 1 - 1)%Z with n by lia.
    eexists. split; [reflexivity|].
    split_and!; simpl.
    + intros C'. simpl. destruct (decide (C' = C)) as [->|Hne].
      * rewrite !lookup_insert_eq. exists (n + 1)%Z. split_and!; [done|lia|done].
      * rewrite !lookup_insert_ne by done. apply Hinv.
    + lia.
    + by rewrite lookup_insert_eq.
    + intros C' Hne. by rewrite lookup_insert_ne.
  - rewrite HC. simpl. rewrite lookup_insert_eq. simpl.
    eexists. split; [reflexivity|].
    split_and!; simpl.
    + intros C'. simpl. destruct (decide (C' = C)) as [->|Hne].
      * rewrite !lookup_insert_eq. exists 1%Z. split_and!; [done|lia|done].
      * rewrite !lookup_insert_ne by done. apply Hinv.
    + lia.
    + by rewrite lookup_insert_eq.
    + intros C' Hne. by rewrite !lookup_insert_ne.
Qed.

Lemma issued_for_cons (C c : entity_class) (cs : list entity_class)
    (v : Z) (ids : list Z) :
  issued_for C (c :: cs) (v :: ids)
  = if bool_decide (c = C) then v :: issued_for C cs ids
    else issued_for C cs ids.
Proof. unfold issued_for. simpl. by case_bool_decide. Qed.

Lemma issue_spec (C : entity_class) (cs : list entity_class) :
  ∀ g, gen_inv g →
  ∃ ids g', issue cs g = (Ok ids, g') ∧ gen_inv g' ∧
    length ids = length cs ∧
    issued_for C cs ids
      = seqZ (EntityIdGenerator.get_current_id C g)
             (Z.of_nat (length (issued_for C cs ids))) ∧
    EntityIdGenerator.get_current_id C g'
      = (EntityIdGenerator.get_current_id C g
         + Z.of_nat (length (issued_for C cs ids)))%Z.
Proof.
  induction cs as [|c cs IH]; intros g Hinv; simpl.
  { exists [], g. run_M. split_and!; try done. lia. }
  destruct (get_next_id_spec c g Hinv) as (g1 & E1 & Hinv1 & Hpos & Hcur & Hoth).
  destruct (IH g1 Hinv1) as (ids & g' & E & Hinv' & Hlen & Hseq & Hcur').
  exists (EntityIdGenerator.get_current_id c g :: ids), g'.
  run_M. rewrite E1, E. rewrite issued_for_cons.
  set (L := issued_for C cs ids) in *.
  split_and!; try done.
  - simpl. by rewrite Hlen.
  - case_bool_decide as Hc.
    + subst c. cbn [length]. rewrite Nat2Z.inj_succ, seqZ_cons by lia.
      f_equal. rewrite Hseq at 1. rewrite Hcur. f_equal; lia.
    + rewrite <- (Hoth C) by done. exact Hseq.
  - case_bool_decide as Hc.
    + subst c. cbn [length]. rewrite Hcur', Hcur. lia.
    + rewrite Hcur'. by rewrite (Hoth C).
Qed.

Lemma seqZ_sorted (m n : Z) : StronglySorted Z.lt (seqZ m n).
Proof.
  destruct (decide (0 ≤ n)%Z) as [Hn|Hn].
  2:{ rewrite seqZ_nil by lia. constructor. }
  revert m. pattern n. apply natlike_ind; [| |exact Hn].
  - intros m. rewrite seqZ_nil by lia. constructor.
  - intros k Hk IH m. rewrite seqZ_cons by lia. constructor.
    + replace (Z.pred (Z.succ k)) with k by lia. apply IH.
    + apply List.Forall_forall. intros x Hx.
      apply list_elem_of_In, elem_of_seqZ in Hx. lia.
Qed.

(** C7. Issuing ids for any sequence of classes from a fresh generator, the
    ids issued for a class [C] are strictly increasing and pairwise
    distinct and start at 0; [get_current_id] then gives the id that the
    next [get_next_id] for [C] returns, and 0 on the fresh generator. *)
Theorem get_next_id_sequence (C : entity_class) (cs : list entity_class) :
  ∃ ids g,
    issue cs EntityIdGenerator.__init__ = (Ok ids, g) ∧
    length ids = length cs ∧
    StronglySorted Z.lt (issued_for C cs ids) ∧
    NoDup (issued_for C cs ids) ∧
    (∀ k v, issued_for C cs ids !! k = Some v → v = Z.of_nat k) ∧
    EntityIdGenerator.get_current_id C g
      = Z.of_nat (length (issued_for C cs ids)) ∧
    (EntityIdGenerator.get_next_id C g).1
      = Ok (EntityIdGenerator.get_current_id C g) ∧
    EntityIdGenerator.get_current_id C EntityIdGenerator.__init__ = 0%Z.
Proof.
  destruct (issue_spec C cs _ gen_inv_init)
    as (ids & g & E & Hinv & Hlen & Hseq & Hcur).
  assert (EntityIdGenerator.get_current_id C EntityIdGenerator.__init__ = 0%Z)
    as H0 by reflexivity.
  rewrite H0 in Hseq, Hcur.
  exists ids, g. split_and!; try done.
  - rewrite Hseq. apply seqZ_sorted.
  - rewrite Hseq. apply NoDup_seqZ.
  - intros k v Hk. rewrite Hseq in Hk. apply lookup_seqZ in Hk. lia.
  - destruct (get_next_id_spec C g Hinv) as (g' & -> & _). reflexivity.
Qed.

Example issue_foo_bar_foo :
  (issue ["Foo"; "Bar"; "Foo"] EntityIdGenerator.__init__).1
  = Ok [0%Z; 0%Z; 1%Z].
Proof. vm_compute. reflexivity. Qed.

(** ** The entity cache *)

Section EntityCache_props.

Variable h : Heap.

Context {eqv : entity_eq}.

Implicit Types (c : EntityCache.t) (e : ref).

Lemma cache_add_eq e c :
  EntityCache.add h e c =
    match ent_id (h e) with
    | None => (Raise (ValueError "Entity ID must not be None."), c)
    | Some i =>
        (Ok tt,
         {| EntityCache.__entities := EntityCache.__entities c ++ [e];
            EntityCache.__id_map := <[i := e]> (EntityCache.__id_map c);
            EntityCache.__slug_map :=
              match ent_slug (h e) with
              | Some s => <[s := e]> (EntityCache.__slug_map c)
              | None => EntityCache.__slug_map c
              end |})
    end.
Proof.
  unfold EntityCache.add. destruct (ent_id (h e)); [|reflexivity].
  run_M. by destruct (ent_slug (h e)).
Qed.

Lemma cache_remove_eq e c :
  EntityCache.remove h e c =
    match ent_id (h e) with
    | None => (Raise KeyError, c)
    | Some i =>
        match EntityCache.__id_map c !! i with
        | None => (Raise KeyError, c)
        | Some _ =>
            let c1 :=
              {| EntityCache.__entities := EntityCache.__entities c;
                 EntityCache.__id_map := delete i (EntityCache.__id_map c);
                 EntityCache.__slug_map :=
                   match ent_slug (h e) with
                   | Some s => delete s (EntityCache.__slug_map c)
                   | None => EntityCache.__slug_map c
                   end |} in
            match EntityCache.list_remove h e (EntityCache.__entities c) with
            | Some l => (Ok tt, EntityCache.set_entities l c1)
            | None =>
                (Raise (ValueError "list.remove(x): x not in list"), c1)
            end
        end
    end.
Proof.
  unfold EntityCache.remove, EntityCache.has_id. run_M.
  destruct (ent_id (h e)) as [i|]; simpl; [|reflexivity].
  destruct (EntityCache.__id_map c !! i) as [r|] eqn:Ei; simpl.
  - destruct (ent_slug (h e)); simpl;
      by destruct (EntityCache.list_remove h e (EntityCache.__entities c)).
  - reflexivity.
Qed.

(** [l.remove(x)] finds something to drop when [x] itself is in [l]. *)
Lemma list_remove_listed e (l : list ref) :
  e ∈ l → is_Some (EntityCache.list_remove h e l).
Proof.
  induction l as [|y l IH]; simpl; intros Hin; [by apply elem_of_nil in Hin|].
  destruct (bool_decide (y = e) || py_eq h y e) eqn:E; [by eexists|].
  apply elem_of_cons in Hin as [->|Hin].
  - rewrite bool_decide_eq_true_2 in E by done. discriminate.
  - destruct (IH Hin) as [l' ->]. by eexists.
Qed.

(** After a [remove] that returns, the id is gone and a second [remove]
    raises [KeyError]: for every cache. *)
Lemma cache_remove_twice e c c' :
  EntityCache.remove h e c = (Ok tt, c') →
  EntityCache.has_id (ent_id (h e)) c' = false ∧
  EntityCache.remove h e c' = (Raise KeyError, c').
Proof.
  rewrite cache_remove_eq. destruct (ent_id (h e)) as [i|] eqn:Ei; [|done].
  destruct (EntityCache.__id_map c !! i); [|done].
  destruct (EntityCache.list_remove h e _); [|done]. intros [= <-].
  rewrite cache_remove_eq, Ei. unfold EntityCache.has_id. simpl.
  rewrite lookup_delete_eq. split; [|reflexivity].
  apply bool_decide_eq_false_2. by intros [? ?].
Qed.

(** After a [replace] that returns, the id leads to the new entity, and the
    entity it led to before is found neither under its id nor under its
    slug: for every cache. *)
Lemma cache_replace_spec e2 c c' :
  EntityCache.replace h e2 c = (Ok tt, c') →
  EntityCache.get_by_id (ent_id (h e2)) c' = Some e2 ∧
  ∃ old, EntityCache.get_by_id (ent_id (h e2)) c = Some old ∧
    (old ≠ e2 →
       EntityCache.get_by_id (ent_id (h old)) c' ≠ Some old ∧
       EntityCache.get_by_slug (ent_slug (h old)) c' ≠ Some old) ∧
    (∀ k, EntityCache.__id_map c' !! k = Some old →
          old = e2 ∨ (EntityCache.__id_map c !! k = Some old ∧
                      ent_id (h old) ≠ Some k)) ∧
    (∀ s, EntityCache.__slug_map c' !! s = Some old →
          old = e2 ∨ (EntityCache.__slug_map c !! s = Some old ∧
                      ent_slug (h old) ≠ Some s)).
Proof.
  unfold EntityCache.replace. run_M.
  destruct (EntityCache.get_by_id (ent_id (h e2)) c) as [old|] eqn:Eold;
    [|done].
  rewrite cache_remove_eq.
  destruct (ent_id (h old)) as [j|] eqn:Ej; [|done].
  destruct (EntityCache.__id_map c !! j) eqn:Emj; [|done]. simpl.
  destruct (EntityCache.list_remove h old _); [|done]. rewrite cache_add_eq.
  destruct (ent_id (h e2)) as [i|] eqn:Ei; [|done]. intros [= <-].
  unfold EntityCache.get_by_id, EntityCache.get_by_slug. simpl.
  rewrite lookup_insert_eq. split; [reflexivity|].
  exists old. split; [reflexivity|]. split_and!.
  - intros Hne. split.
    + rewrite Ej. simpl. destruct (decide (i = j)) as [->|Hij].
      * rewrite lookup_insert_eq. congruence.
      * rewrite lookup_insert_ne, lookup_delete_eq by done. done.
    + destruct (ent_slug (h old)) as [s|] eqn:Es; simpl; [|done].
      destruct (ent_slug (h e2)) as [s2|] eqn:Es2.
      * destruct (decide (s2 = s)) as [->|Hs].
        -- rewrite lookup_insert_eq. congruence.
        -- rewrite lookup_insert_ne, lookup_delete_eq by done. done.
      * by rewrite lookup_delete_eq.
  - intros k Hk. destruct (decide (old = e2)) as [|Hne]; [by left|right].
    destruct (decide (i = k)) as [->|Hik].
    + rewrite lookup_insert_eq in Hk. congruence.
    + rewrite lookup_insert_ne in Hk by done.
      destruct (decide (j = k)) as [->|Hjk].
      * by rewrite lookup_delete_eq in Hk.
      * rewrite lookup_delete_ne in Hk by done. split; [done|congruence].
  - intros s Hs. destruct (decide (old = e2)) as [|Hne]; [by left|right].
    assert (∀ m : gmap string ref,
      match ent_slug (h e2) with
      | Some s2 => <[s2 := e2]> m
      | None => m
      end !! s = Some old → m !! s = Some old) as Hadd.
    { intros m. destruct (ent_slug (h e2)) as [s2|]; [|done].
      destruct (decide (s2 = s)) as [->|Hne2].
      - rewrite lookup_insert_eq. congruence.
      - by rewrite lookup_insert_ne. }
    apply Hadd in Hs. destruct (ent_slug (h old)) as [so|] eqn:Eso.
    + destruct (decide (so = s)) as [->|Hso].
      * by rewrite lookup_delete_eq in Hs.
      * rewrite lookup_delete_ne in Hs by done. split; [done|congruence].
    + split; [done|discriminate].
Qed.

(** C6. For every cache and entities [e], [e2] with the same id: after
    [add(e)], [get_by_id(e.id)] is [e]; after [remove(e)], [has_id(e.id)]
    is false and a second [remove(e)] raises [KeyError]; after
    [replace(e2)], [get_by_id(e.id)] is [e2] and [e] is found neither under
    its id nor under its slug, and under no key at all when the cache did
    not hold [e] before. *)
Theorem cache_add_remove_replace c e e2 (i : Z) :
  ent_id (h e) = Some i → ent_id (h e2) = Some i → e2 ≠ e →
  ∃ c1 c2 c3,
    EntityCache.add h e c = (Ok tt, c1) ∧
    EntityCache.get_by_id (ent_id (h e)) c1 = Some e ∧
    EntityCache.remove h e c1 = (Ok tt, c2) ∧
    EntityCache.has_id (ent_id (h e)) c2 = false ∧
    EntityCache.remove h e c2 = (Raise KeyError, c2) ∧
    EntityCache.replace h e2 c1 = (Ok tt, c3) ∧
    EntityCache.get_by_id (ent_id (h e)) c3 = Some e2 ∧
    EntityCache.get_by_slug (ent_slug (h e)) c3 ≠ Some e ∧
    ((∀ k, EntityCache.__id_map c !! k ≠ Some e) →
     (∀ s, EntityCache.__slug_map c !! s ≠ Some e) →
     (∀ k, EntityCache.get_by_id k c3 ≠ Some e) ∧
     (∀ s, EntityCache.get_by_slug s c3 ≠ Some e)).
Proof.
  intros Hi Hi2 Hne.
  destruct (EntityCache.add h e c) as [r1 c1] eqn:Eadd.
  pose proof Eadd as Eadd'. rewrite cache_add_eq, Hi in Eadd'.
  injection Eadd' as <- Hc1.
  assert (EntityCache.get_by_id (ent_id (h e)) c1 = Some e) as Hget.
  { subst c1. rewrite Hi. unfold EntityCache.get_by_id. simpl.
    apply lookup_insert_eq. }
  assert (e ∈ EntityCache.__entities c1) as Hin.
  { subst c1. simpl. apply elem_of_app. right. apply list_elem_of_here. }
  assert (EntityCache.__id_map c1 !! i = Some e) as Hmi.
  { subst c1. simpl. apply lookup_insert_eq. }
  destruct (EntityCache.remove h e c1) as [r2 c2] eqn:Erm.
  assert (r2 = Ok tt) as ->.
  { rewrite cache_remove_eq, Hi, Hmi in Erm. simpl in Erm.
    destruct (list_remove_listed e _ Hin) as [l Hl]. rewrite Hl in Erm.
    congruence. }
  destruct (cache_remove_twice e c1 c2 Erm) as [Hhas Htwice].
  destruct (EntityCache.replace h e2 c1) as [r3 c3] eqn:Erp.
  assert (r3 = Ok tt) as ->.
  { unfold EntityCache.replace in Erp. run_M.
    rewrite Hi2 in Erp. rewrite <- Hi, Hget in Erp. rewrite Erm in Erp.
    rewrite cache_add_eq, Hi2 in Erp. congruence. }
  destruct (cache_replace_spec e2 c1 c3 Erp)
    as (Hnew & old & Hold & Hown & Hids & Hslugs).
  rewrite Hi2, <- Hi, Hget in Hold. injection Hold as <-.
  destruct (Hown (not_eq_sym Hne)) as [_ Hslug].
  exists c1, c2, c3. split_and!; try done.
  - by rewrite Hi, <- Hi2.
  - intros Hfresh_id Hfresh_slug. split.
    + intros [k|]; [|done]. unfold EntityCache.get_by_id. simpl.
      intros Hk. destruct (Hids k Hk) as [->|[Hk1 Hk2]]; [done|].
      subst c1. simpl in Hk1.
      destruct (decide (i = k)) as [->|Hik]; [congruence|].
      rewrite lookup_insert_ne in Hk1 by done. by apply (Hfresh_id k).
    + intros [s|]; [|done]. unfold EntityCache.get_by_slug. simpl.
      intros Hs. destruct (Hslugs s Hs) as [->|[Hs1 Hs2]]; [done|].
      subst c1. simpl in Hs1.
      destruct (ent_slug (h e)) as [se|]; [|by apply (Hfresh_slug s)].
      destruct (decide (se = s)) as [->|Hse]; [congruence|].
      rewrite lookup_insert_ne in Hs1 by done. by apply (Hfresh_slug s).
Qed.

End EntityCache_props.

(** ** The session *)

Lemma has_id_init (k : option Z) :
  EntityCache.has_id k EntityCache.__init__ = false.
Proof.
  unfold EntityCache.has_id. apply bool_decide_eq_false_2.
  destruct k; simpl; [rewrite lookup_empty|]; by intros [? ?].
Qed.

Lemma has_slug_init (k : option string) :
  EntityCache.has_slug k EntityCache.__init__ = false.
Proof.
  unfold EntityCache.has_slug. apply bool_decide_eq_false_2.
  destruct k; simpl; [rewrite lookup_empty|]; by intros [? ?].
Qed.

(** [Session.add] on an entity whose id or slug the cache of its class
    holds: the check raises before anything is written. *)
Lemma session_add_duplicate (cls : entity_class) (e : ref)
    (w : Session.world) :
  (ent_id (w.1 e) ≠ None ∧
   EntityCache.has_id (ent_id (w.1 e)) (cache_of cls w) = true) ∨
  (ent_slug (w.1 e) ≠ None ∧
   EntityCache.has_slug (ent_slug (w.1 e)) (cache_of cls w) = true) →
  Session.add cls e w
  = (Raise (if bool_decide (ent_id (w.1 e) ≠ None)
               && EntityCache.has_id (ent_id (w.1 e)) (cache_of cls w)
            then Session.duplicate_key (default 0%Z (ent_id (w.1 e)))
            else Session.duplicate_slug (default "" (ent_slug (w.1 e)))),
     w).
Proof.
  destruct w as [h [u [m]]]. unfold cache_of. simpl. intros Hdup.
  unfold Session.add, Session.on_cache_mgr, EntityCacheManager.__getitem__,
    EntityCacheManager._initialize_cache.
  run_M.
  destruct (m !! cls) as [c|] eqn:Ec; simpl in *.
  - destruct Hdup as [[Hid Hhas]|[Hslug Hhas]].
    + rewrite Hhas, bool_decide_eq_true_2 by done. reflexivity.
    + destruct (bool_decide (ent_id (h e) ≠ None)
                && EntityCache.has_id (ent_id (h e)) c); [reflexivity|].
      simpl. rewrite Hhas, bool_decide_eq_true_2 by done. reflexivity.
  - rewrite has_id_init, has_slug_init in Hdup.
    destruct Hdup as [[_ ?]|[_ ?]]; discriminate.
Qed.

(** C5. [Session.add] raises the duplicate-key [ValueError] whenever the
    entity carries a non-null id, or a non-null slug, that the cache of its
    class already holds, and the session (its cache manager and its unit of
    work) and the entities are then exactly as before the call. *)
Theorem session_add_duplicate_fails_unchanged (cls : entity_class) (e : ref)
    (w : Session.world) :
  (ent_id (w.1 e) ≠ None ∧
   EntityCache.has_id (ent_id (w.1 e)) (cache_of cls w) = true) ∨
  (ent_slug (w.1 e) ≠ None ∧
   EntityCache.has_slug (ent_slug (w.1 e)) (cache_of cls w) = true) →
  (∃ msg, (Session.add cls e w).1 = Raise (ValueError msg)) ∧
  (Session.add cls e w).2 = w.
Proof.
  intros Hdup. rewrite (session_add_duplicate cls e w Hdup). simpl.
  split; [|reflexivity].
  destruct (bool_decide (ent_id (w.1 e) ≠ None)
            && EntityCache.has_id (ent_id (w.1 e)) (cache_of cls w));
    by eexists.
Qed.

(** C10. [EntityCache.add] on an entity whose id the cache already holds
    raises nothing: the id then leads to the newer entity, and so does its
    slug when it has one (the slug map is untouched otherwise), while the
    list of entities gains the newer one and keeps the older.  The session
    is where such an entity is turned down. *)
Theorem cache_add_overwrites_duplicate_id (h : Heap) (c : EntityCache.t)
    (e old : ref) (i : Z) :
  ent_id (h e) = Some i →
  EntityCache.get_by_id (Some i) c = Some old →
  (∃ c', EntityCache.add h e c = (Ok tt, c') ∧
     EntityCache.get_by_id (Some i) c' = Some e ∧
     match ent_slug (h e) with
     | Some s => EntityCache.get_by_slug (Some s) c' = Some e
     | None => EntityCache.__slug_map c' = EntityCache.__slug_map c
     end ∧
     EntityCache.__entities c' = EntityCache.__entities c ++ [e] ∧
     (old ∈ EntityCache.__entities c → old ∈ EntityCache.__entities c')) ∧
  (∀ (cls : entity_class) (w : Session.world),
     w.1 = h → cache_of cls w = c →
     ∃ msg, Session.add cls e w = (Raise (ValueError msg), w)).
Proof.
  intros Hi Hold. split.
  - rewrite cache_add_eq, Hi. eexists. split; [reflexivity|].
    unfold EntityCache.get_by_id, EntityCache.get_by_slug. simpl.
    split_and!.
    + apply lookup_insert_eq.
    + destruct (ent_slug (h e)); [apply lookup_insert_eq | reflexivity].
    + reflexivity.
    + intros Hin. apply elem_of_app. by left.
  - intros cls w <- <-.
    assert (EntityCache.has_id (ent_id (w.1 e)) (cache_of cls w) = true)
      as Hhas.
    { rewrite Hi. unfold EntityCache.has_id, EntityCache.get_by_id in *.
      apply bool_decide_eq_true_2. by eexists. }
    rewrite session_add_duplicate; [|left; split; [by rewrite Hi|done]].
    rewrite Hhas, bool_decide_eq_true_2 by (by rewrite Hi). simpl.
    by eexists.
Qed.

Section Session_props.

Variable hash : string → Z.

(** What [get_new(entity_cls)] yields: the NEW entities of the live set of
    the class, in order; the entities are left alone. *)
Lemma get_new_of_class (cls : entity_class) (w : UnitOfWork.world) :
  let out := UnitOfWork.get_new hash (Some cls) w in
  out.1 = Ok (UnitOfWork.yield_in_state hash w.1 NEW
                (default [] (UnitOfWork.alist_lookup cls
                               (UnitOfWork.__entity_set_map w.2)))) ∧
  out.2.1 = w.1.
Proof.
  destruct w as [h u]. unfold UnitOfWork.get_new, UnitOfWork.__object_iterator.
  simpl. run_M. unfold UnitOfWork.entity_set. run_M.
  destruct (UnitOfWork.alist_lookup cls (UnitOfWork.__entity_set_map u));
    simpl; by rewrite ?app_nil_r.
Qed.

(** [Session.get_by_slug] looks the slug up in the cache of the class and,
    when it is not there, takes the first NEW entity of the class's live
    set that carries the slug. *)
Lemma session_get_by_slug_lookup_order (cls : entity_class)
    (slug : option string) (w : Session.world) :
  (Session.get_by_slug hash cls slug w).1 =
    match EntityCache.get_by_slug slug (cache_of cls w) with
    | Some found_ent => Ok (Some found_ent)
    | None =>
        let live := default [] (UnitOfWork.alist_lookup cls
                      (UnitOfWork.__entity_set_map (Session.__unit_of_work w.2))) in
        let gen := UnitOfWork.yield_in_state hash w.1 NEW live in
        match List.find (λ ent, bool_decide (ent_slug (w.1 ent) = slug))
                        gen.1 with
        | Some ent => Ok (Some ent)
        | None => match gen.2 with
                  | Some err => Raise err
                  | None => Ok None
                  end
        end
    end.
Proof.
  destruct w as [h [u [m]]]. unfold cache_of. simpl.
  unfold Session.get_by_slug, Session.on_cache_mgr,
    EntityCacheManager.__getitem__, EntityCacheManager._initialize_cache,
    Session.on_unit_of_work.
  run_M.
  pose proof (get_new_of_class cls (h, u)) as [Hy Hh]. simpl in Hy, Hh.
  destruct (m !! cls) as [c|]; simpl;
    (destruct (EntityCache.get_by_slug slug _); simpl; [reflexivity|]);
    destruct (UnitOfWork.get_new hash (Some cls) (h, u)) as [r [h' u']];
    simpl in *; subst r h'; simpl;
    (destruct (List.find _ _); simpl; [reflexivity|]);
    by destruct (UnitOfWork.yield_in_state hash h NEW _).2.
Qed.

End Session_props.

(** ** Concrete runs of the cache and the session *)

Section cache_and_session_runs.

(** The runs are on entities that are equal when they have the same id, in
    weak sets that keep the order of insertion. *)
#[local] Existing Instance eq_by_id.

#[local] Existing Instance insertion_order.

Lemma session_add_duplicate_fails_unchanged_witness :
  ((∃ msg, (Session.add "Foo" 1%nat loaded_session).1
           = Raise (ValueError msg)) ∧
   (Session.add "Foo" 1%nat loaded_session).2 = loaded_session) ∧
  ((∃ msg, (Session.add "Foo" 2%nat loaded_session).1
           = Raise (ValueError msg)) ∧
   (Session.add "Foo" 2%nat loaded_session).2 = loaded_session).
Proof.
  split.
  - apply (session_add_duplicate_fails_unchanged "Foo" 1%nat loaded_session).
    left. split; [discriminate | vm_compute; reflexivity].
  - apply (session_add_duplicate_fails_unchanged "Foo" 2%nat loaded_session).
    right. split; [discriminate | vm_compute; reflexivity].
Defined.

Lemma cache_add_remove_replace_witness :
  ∃ c1 c3,
    EntityCache.add fives 0%nat EntityCache.__init__ = (Ok tt, c1) ∧
    EntityCache.replace fives 1%nat c1 = (Ok tt, c3) ∧
    EntityCache.get_by_id (ent_id (fives 0%nat)) c3 = Some 1%nat ∧
    EntityCache.get_by_slug (ent_slug (fives 0%nat)) c3 ≠ Some 0%nat.
Proof.
  destruct (cache_add_remove_replace fives EntityCache.__init__
              0%nat 1%nat 5%Z)
    as (c1 & c2 & c3 & Hadd & _ & _ & _ & _ & Hrp & Hget & Hslug & _);
    [reflexivity | reflexivity | lia |].
  exists c1, c3. split_and!; assumption.
Defined.

Lemma cache_add_overwrites_duplicate_id_witness :
  ∃ c', EntityCache.add fives 1%nat loaded_cache = (Ok tt, c') ∧
        EntityCache.get_by_id (Some 5%Z) c' = Some 1%nat ∧
        EntityCache.__entities c' = EntityCache.__entities loaded_cache ++ [1%nat].
Proof.
  destruct (cache_add_overwrites_duplicate_id fives loaded_cache
              1%nat 0%nat 5%Z) as [(c' & Hadd & Hget & _ & Hents & _) _];
    [reflexivity | vm_compute; reflexivity |].
  exists c'. split_and!; assumption.
Defined.

(** C8 does not hold of [Session.add]: it calls
    [register_new(entity)] without the entity class and raises [TypeError]
    ([register_new] called with both arguments raises too, from
    [ObjectStateManager(OBJECT_STATES.NEW)]); the entity is neither
    registered nor cached, and [get_by_slug] does not find it once its slug
    is set. *)
Lemma session_add_then_get_by_slug_misses :
  (Session.add "Foo" 0%nat fresh_session).1
    = Raise (TypeError "register_new() takes exactly 3 arguments (2 given)") ∧
  (UnitOfWork.register_new "Foo" 0%nat
     (fresh_session.1, UnitOfWork.__init__ empty_repository)).1
    = Raise (TypeError "__init__() takes exactly 3 arguments (2 given)") ∧
  UnitOfWork.__entity_set_map (Session.__unit_of_work after_add.2) = [] ∧
  cache_of "Foo" after_add = EntityCache.__init__ ∧
  ent_slug (slug_set.1 0%nat) = Some "x" ∧
  (Session.get_by_slug py_hash "Foo" (Some "x") slug_set).1 = Ok None.
Proof. vm_compute. split_and!; reflexivity. Qed.

(** The lookup itself: cache first, then the NEW entities of the class. *)
Example get_by_slug_finds_new_entity :
  (Session.get_by_slug py_hash "Foo" (Some "x") new_by_hand).1
  = Ok (Some 0%nat).
Proof. vm_compute. reflexivity. Qed.

End cache_and_session_runs.

(** * Further properties *)

(** ** Live sets *)

Lemma alist_lookup_None_keys {V} (m : list (entity_class * V)) k :
  UnitOfWork.alist_lookup k m = None → k ∉ m.*1.
Proof.
  induction m as [|[k' v] m IH]; simpl; intros Hl Hin.
  - by apply elem_of_nil in Hin.
  - case_decide; [discriminate|].
    apply elem_of_cons in Hin as [->|Hin]; [done|]. by apply IH.
Qed.

Lemma alist_lookup_app {V} (m : list (entity_class * V)) k k' v :
  UnitOfWork.alist_lookup k (m ++ [(k', v)]) =
    match UnitOfWork.alist_lookup k m with
    | Some x => Some x
    | None => if decide (k' = k) then Some v else None
    end.
Proof.
  induction m as [|[k1 v1] m IH]; simpl; [reflexivity|].
  destruct (decide (k1 = k)); [reflexivity | exact IH].
Qed.

Lemma alist_lookup_update {V} (m : list (entity_class * V)) k k' v :
  UnitOfWork.alist_lookup k (UnitOfWork.alist_update k' v m) =
    if decide (k = k') then (λ _, v) <$> UnitOfWork.alist_lookup k m
    else UnitOfWork.alist_lookup k m.
Proof.
  induction m as [|[k1 v1] m IH]; simpl; [by case_decide|].
  destruct (decide (k1 = k')) as [->|Hk1]; simpl.
  - destruct (decide (k' = k)) as [->|Hk].
    + by rewrite decide_True.
    + by rewrite decide_False.
  - destruct (decide (k1 = k)) as [->|Hk].
    + by rewrite decide_False.
    + exact IH.
Qed.

Lemma alist_update_keys {V} (m : list (entity_class * V)) k v :
  (UnitOfWork.alist_update k v m).*1 = m.*1.
Proof.
  induction m as [|[k1 v1] m IH]; simpl; [reflexivity|].
  case_decide; simpl; [reflexivity | f_equal; exact IH].
Qed.

Lemma alist_update_Forall {V} (P : V → Prop) (m : list (entity_class * V))
    k v :
  P v → Forall (λ kv, P kv.2) m →
  Forall (λ kv, P kv.2) (UnitOfWork.alist_update k v m).
Proof.
  intros Hv. induction 1 as [|[k1 v1] m H1 Hm IH]; simpl; [constructor|].
  case_decide; constructor; auto.
Qed.

Lemma alist_lookup_Forall {V} (P : V → Prop) (m : list (entity_class * V))
    k v :
  Forall (λ kv, P kv.2) m → UnitOfWork.alist_lookup k m = Some v → P v.
Proof.
  induction 1 as [|[k1 v1] m H1 Hm IH]; simpl; [done|].
  case_decide; [by intros [= <-]|exact IH].
Qed.

(** [self.__entity_set_map[cls].add(ent)]: the entity joins the live set of
    the class unless it is there already; the other live sets, the entities
    and the repository are left alone. *)
Lemma entity_set_add_spec {order : WeakSet_order} (cls : entity_class)
    (ent : ref) (w : UnitOfWork.world) :
  let out := UnitOfWork.entity_set_add cls ent w in
  out.1 = Ok tt ∧
  out.2.1 = w.1 ∧
  UnitOfWork.__repository out.2.2 = UnitOfWork.__repository w.2 ∧
  live_set cls out.2.2
    = (if bool_decide (ent ∈ live_set cls w.2) then live_set cls w.2
       else placed ent (live_set cls w.2)) ∧
  (∀ c, c ≠ cls → live_set c out.2.2 = live_set c w.2) ∧
  (live_sets_are_sets w.2 → live_sets_are_sets out.2.2).
Proof.
  destruct w as [h [repo m]]. unfold live_set, live_sets_are_sets.
  unfold UnitOfWork.entity_set_add, UnitOfWork.entity_set. run_M.
  destruct (UnitOfWork.alist_lookup cls m) as [s|] eqn:Es; simpl.
  - case_bool_decide as Hin; simpl.
    + rewrite Es. simpl. split_and!; try done.
    + rewrite !alist_lookup_update, decide_True, Es by done. simpl.
      split_and!; try done.
      * intros c Hc. by rewrite alist_lookup_update, decide_False.
      * intros [Hk Hs]. split; [by rewrite alist_update_keys|].
        apply alist_update_Forall; [|done].
        rewrite placed_perm. apply list.NoDup_cons. split; [done|].
        apply (alist_lookup_Forall NoDup m cls s Hs Es).
  - rewrite !alist_lookup_update, decide_True, alist_lookup_app, Es by done.
    rewrite decide_True by done. simpl.
    split_and!; try done.
    + intros c Hc.
      rewrite alist_lookup_update, decide_False, alist_lookup_app by done.
      destruct (UnitOfWork.alist_lookup c m); [done|].
      by rewrite decide_False.
    + intros [Hk Hs]. split.
      * rewrite alist_update_keys, fmap_app. simpl.
        apply list.NoDup_app. split_and!; [done| |apply NoDup_singleton].
        intros x Hx ->%list_elem_of_singleton.
        by apply (alist_lookup_None_keys m cls).
      * apply alist_update_Forall;
          [rewrite placed_perm; apply NoDup_singleton|].
        apply Forall_app. split; [done|]. constructor; [|constructor].
        simpl. apply NoDup_nil_2.
Qed.

(** ** State holders on entities *)

Section marks.

Variable hash : string → Z.

Context {order : WeakSet_order}.

Implicit Types (h : Heap) (w : UnitOfWork.world) (ent : ref)
  (t : ObjectStateManager.t).

Lemma holder_update_fingerprint h ent x t :
  fingerprint hash (<[ent := set_everest x (h ent)]> h) t
  = fingerprint hash h t.
Proof.
  unfold fingerprint. do 3 f_equal.
  destruct (decide (__obj_ref t = ent)) as [->|Hne].
  - by rewrite fn_lookup_insert.
  - by rewrite fn_lookup_insert_ne.
Qed.

Lemma holder_update_get_state h ent x t :
  ObjectStateManager.__get_state hash (<[ent := set_everest x (h ent)]> h) t
  = ObjectStateManager.__get_state hash h t.
Proof. by rewrite !get_state_cases, holder_update_fingerprint. Qed.

Lemma holder_update_same_but_holder h ent x :
  same_but_holder ent h (<[ent := set_everest x (h ent)]> h).
Proof.
  split; [intros y Hy; by rewrite fn_lookup_insert_ne|].
  by rewrite fn_lookup_insert.
Qed.

Lemma holder_update_id h ent t :
  __everest__ (h ent) = Some t →
  same_entities h (<[ent := set_everest (Some t) (h ent)]> h).
Proof.
  intros Ht y. destruct (decide (y = ent)) as [->|Hne].
  - rewrite fn_lookup_insert. destruct (h ent). simpl in *. by rewrite Ht.
  - by rewrite fn_lookup_insert_ne.
Qed.

(** [entity.__everest__.state = target] *)
Lemma on_everest_set_state ent target w t :
  __everest__ (w.1 ent) = Some t →
  UnitOfWork.on_everest ent
    (λ h, ObjectStateManager.__set_state hash h target) w
  = if bool_decide ((ObjectStateManager.__get_state hash w.1 t, target)
                      ∈ legal_transitions)
    then (Ok tt,
          (<[ent := set_everest (Some (with_state target t)) (w.1 ent)]> w.1,
           w.2))
    else (Raise (ValueError ("Invalid state transition "
                             +:+ state_name (__state t) +:+ " -> "
                             +:+ state_name target +:+ ".")),
          (<[ent := set_everest (Some t) (w.1 ent)]> w.1, w.2)).
Proof.
  intros Ht. unfold UnitOfWork.on_everest. rewrite Ht.
  case_bool_decide as Hin.
  - by rewrite (set_state_ok hash _ _ _ Hin).
  - by rewrite (set_state_raise hash _ _ _ Hin).
Qed.

Lemma marks_as_intro target cls ent w t :
  __everest__ (w.1 ent) = Some t →
  marks_as hash target cls ent w t
    ((UnitOfWork.on_everest ent
        (λ h, ObjectStateManager.__set_state hash h target)
      ≫= λ _, UnitOfWork.entity_set_add cls ent) w).
Proof.
  intros Ht. unfold marks_as. run_M. rewrite (on_everest_set_state _ _ _ _ Ht).
  case_bool_decide as Hin; simpl.
  - set (w1 := (<[ent := set_everest (Some (with_state target t)) (w.1 ent)]>
                  w.1, w.2)).
    pose proof (entity_set_add_spec cls ent w1)
      as (Hr & Hh & Hrepo & Hlive & Hoth & Hwf).
    destruct (UnitOfWork.entity_set_add cls ent w1) as [r w2].
    simpl in *. subst r. rewrite Hh. split_and!; try done.
    + apply holder_update_same_but_holder.
    + by rewrite fn_lookup_insert.
  - split_and!; [by eexists | by apply holder_update_id | done].
Qed.

Lemma mark_dirty_marks cls ent w t :
  __everest__ (w.1 ent) = Some t →
  marks_as hash DIRTY cls ent w t (UnitOfWork.mark_dirty hash cls ent w).
Proof.
  intros Ht. pose proof (marks_as_intro DIRTY cls ent w t Ht) as H.
  unfold UnitOfWork.mark_dirty, UnitOfWork.hasattr_everest. run_M.
  rewrite Ht. rewrite bool_decide_eq_true_2 by eauto. exact H.
Qed.

Lemma mark_deleted_marks cls ent w t :
  __everest__ (w.1 ent) = Some t →
  marks_as hash DELETED cls ent w t (UnitOfWork.mark_deleted hash cls ent w).
Proof.
  intros Ht. pose proof (marks_as_intro DELETED cls ent w t Ht) as H.
  unfold UnitOfWork.mark_deleted, UnitOfWork.hasattr_everest. run_M.
  rewrite Ht. rewrite bool_decide_eq_true_2 by eauto. exact H.
Qed.

Lemma mark_clean_marks cls ent w t :
  __everest__ (w.1 ent) = Some t →
  marks_as hash CLEAN cls ent w t (UnitOfWork.mark_clean hash cls ent w).
Proof.
  intros Ht. pose proof (marks_as_intro CLEAN cls ent w t Ht) as H.
  unfold UnitOfWork.mark_clean, UnitOfWork.hasattr_everest. run_M.
  rewrite Ht. rewrite bool_decide_eq_true_2 by eauto. exact H.
Qed.

End marks.

Section mark_outcomes.

Variable hash : string → Z.

Context {order : WeakSet_order}.

Implicit Types (w : UnitOfWork.world) (ent : ref)
  (t : ObjectStateManager.t) (cls : entity_class).

Lemma marked_state target ent w t (h' : Heap) :
  target ≠ CLEAN →
  __everest__ (h' ent) = Some (with_state target t) →
  UnitOfWork.state hash h' ent = Ok target.
Proof.
  intros Hne Ht. unfold UnitOfWork.state. rewrite Ht. f_equal.
  rewrite get_state_cases. simpl. by destruct target.
Qed.

Lemma elem_of_add_once (ent : ref) (l : list ref) :
  ent ∈ (if bool_decide (ent ∈ l) then l else placed ent l).
Proof.
  case_bool_decide; [done|]. rewrite placed_perm. apply list_elem_of_here.
Qed.

(** X1. [mark_dirty] on an entity that has a state holder goes through
    exactly when the entity is observed NEW or CLEAN: the entity is then
    observed DIRTY and is in the live set of the class, nothing else of the
    entities changes and the repository is not called.  On an entity
    observed DIRTY (one whose fields have changed since it was loaded
    included) or DELETED it raises [ValueError] and leaves the entities
    and the unit of work as they were. *)
Theorem mark_dirty_outcome cls ent w t :
  __everest__ (w.1 ent) = Some t →
  let s := ObjectStateManager.__get_state hash w.1 t in
  let out := UnitOfWork.mark_dirty hash cls ent w in
  (s = NEW ∨ s = CLEAN →
     out.1 = Ok tt ∧
     UnitOfWork.state hash out.2.1 ent = Ok DIRTY ∧
     ent ∈ live_set cls out.2.2 ∧
     same_but_holder ent w.1 out.2.1 ∧
     UnitOfWork.__repository out.2.2 = UnitOfWork.__repository w.2 ∧
     ∀ c, c ≠ cls → live_set c out.2.2 = live_set c w.2) ∧
  (s = DIRTY ∨ s = DELETED →
     (∃ msg, out.1 = Raise (ValueError msg)) ∧
     same_entities w.1 out.2.1 ∧
     out.2.2 = w.2).
Proof.
  intros Ht s out. pose proof (mark_dirty_marks hash cls ent w t Ht) as H.
  unfold marks_as in H. fold s out in H. split.
  - intros Hs. rewrite bool_decide_eq_true_2 in H
      by (apply legal_transitions_table; destruct Hs as [-> | ->]; exact I).
    destruct H as (Hr & Hsame & Hev & Hrepo & Hlive & Hoth & _).
    split_and!; try done.
    + by apply (marked_state DIRTY ent w t).
    + rewrite Hlive. apply elem_of_add_once.
  - intros Hs. rewrite bool_decide_eq_false_2 in H; [exact H|].
    intros Hin%legal_transitions_table. by destruct Hs as [Hs | Hs];
      rewrite Hs in Hin.
Qed.

(** X2. [mark_deleted] on an entity that has a state holder goes through
    exactly when the entity is observed NEW, CLEAN or DIRTY: the entity is
    then observed DELETED and is in the live set of the class, and the
    repository is not called.  On an entity already DELETED it raises
    [ValueError] and leaves the entities and the unit of work as they
    were. *)
Theorem mark_deleted_outcome cls ent w t :
  __everest__ (w.1 ent) = Some t →
  let s := ObjectStateManager.__get_state hash w.1 t in
  let out := UnitOfWork.mark_deleted hash cls ent w in
  (s ≠ DELETED →
     out.1 = Ok tt ∧
     UnitOfWork.state hash out.2.1 ent = Ok DELETED ∧
     ent ∈ live_set cls out.2.2 ∧
     same_but_holder ent w.1 out.2.1 ∧
     UnitOfWork.__repository out.2.2 = UnitOfWork.__repository w.2 ∧
     ∀ c, c ≠ cls → live_set c out.2.2 = live_set c w.2) ∧
  (s = DELETED →
     (∃ msg, out.1 = Raise (ValueError msg)) ∧
     same_entities w.1 out.2.1 ∧
     out.2.2 = w.2).
Proof.
  intros Ht s out. pose proof (mark_deleted_marks hash cls ent w t Ht) as H.
  unfold marks_as in H. fold s out in H. split.
  - intros Hs. rewrite bool_decide_eq_true_2 in H
      by (apply legal_transitions_table; by destruct s).
    destruct H as (Hr & Hsame & Hev & Hrepo & Hlive & Hoth & _).
    split_and!; try done.
    + by apply (marked_state DELETED ent w t).
    + rewrite Hlive. apply elem_of_add_once.
  - intros Hs. rewrite bool_decide_eq_false_2 in H; [exact H|].
    intros Hin%legal_transitions_table. by rewrite Hs in Hin.
Qed.

(** X3. [mark_clean] on an entity that has a state holder goes through
    exactly when the entity is observed DIRTY, and puts it in the live set
    of the class; it records CLEAN but keeps the stored fingerprint, so the
    entity is observed CLEAN afterwards only if its fields are as they were
    when the fingerprint was taken, and DIRTY otherwise.  On an entity
    observed NEW, CLEAN or DELETED it raises [ValueError] and changes
    nothing. *)
Theorem mark_clean_outcome cls ent w t :
  __everest__ (w.1 ent) = Some t →
  let s := ObjectStateManager.__get_state hash w.1 t in
  let out := UnitOfWork.mark_clean hash cls ent w in
  (s = DIRTY →
     out.1 = Ok tt ∧
     UnitOfWork.state hash out.2.1 ent
       = Ok (if decide (fingerprint hash w.1 t = __last_state_hash t)
             then CLEAN else DIRTY) ∧
     ent ∈ live_set cls out.2.2 ∧
     same_but_holder ent w.1 out.2.1 ∧
     UnitOfWork.__repository out.2.2 = UnitOfWork.__repository w.2) ∧
  (s ≠ DIRTY →
     (∃ msg, out.1 = Raise (ValueError msg)) ∧
     same_entities w.1 out.2.1 ∧
     out.2.2 = w.2).
Proof.
  intros Ht s out. pose proof (mark_clean_marks hash cls ent w t Ht) as H.
  unfold marks_as in H. fold s out in H. split.
  - intros Hs. rewrite bool_decide_eq_true_2 in H
      by (apply legal_transitions_table; by rewrite Hs).
    destruct H as (Hr & Hsame & Hev & Hrepo & Hlive & Hoth & _).
    split_and!; try done.
    + unfold UnitOfWork.state. rewrite Hev. f_equal.
      rewrite get_state_cases. simpl.
      destruct Hsame as (_ & _ & _ & Hd).
      assert (fingerprint hash out.2.1 (with_state CLEAN t)
              = fingerprint hash w.1 t) as ->; [|done].
      unfold fingerprint. simpl. do 3 f_equal.
      pose proof (mark_clean_marks hash cls ent w t Ht) as H'.
      unfold marks_as in H'. fold s out in H'.
      rewrite bool_decide_eq_true_2 in H'
        by (apply legal_transitions_table; by rewrite Hs).
      destruct H' as (_ & (Hoth' & _ & _ & Hd') & _).
      destruct (decide (__obj_ref t = ent)) as [->|Hne]; [done|].
      by rewrite Hoth'.
    + rewrite Hlive. apply elem_of_add_once.
  - intros Hs. rewrite bool_decide_eq_false_2 in H; [exact H|].
    intros Hin%legal_transitions_table. by destruct s.
Qed.

Lemma marks_unregistered cls ent w :
  __everest__ (w.1 ent) = None →
  UnitOfWork.mark_dirty hash cls ent w
    = (Raise (ValueError "Trying to mark an unregistered entity as DIRTY!"),
       w) ∧
  UnitOfWork.mark_deleted hash cls ent w
    = (Raise (ValueError "Trying to mark an unregistered entity as DELETED!"),
       w) ∧
  UnitOfWork.mark_clean hash cls ent w
    = (Raise (TypeError "__init__() takes exactly 3 arguments (2 given)"), w).
Proof.
  intros Ht.
  unfold UnitOfWork.mark_dirty, UnitOfWork.mark_deleted,
    UnitOfWork.mark_clean, UnitOfWork.hasattr_everest,
    UnitOfWork.ObjectStateManager_1.
  run_M. rewrite Ht.
  rewrite bool_decide_eq_false_2 by (by intros [? ?]). done.
Qed.

End mark_outcomes.

Lemma register_new_raises {order : WeakSet_order} (cls : entity_class)
    (ent : ref) (w : UnitOfWork.world) :
  UnitOfWork.register_new cls ent w
  = (Raise (if bool_decide (is_Some (__everest__ (w.1 ent)))
            then ValueError
              "Trying to register a NEW entity that has already been registered!"
            else TypeError "__init__() takes exactly 3 arguments (2 given)"),
     w).
Proof.
  unfold UnitOfWork.register_new, UnitOfWork.hasattr_everest,
    UnitOfWork.ObjectStateManager_1.
  run_M. by case_bool_decide.
Qed.

(** ** What the calls on a unit of work leave alone *)

Lemma uow_frame_refl (w : UnitOfWork.world) : uow_frame w w.
Proof. split; try done. exists []. by rewrite app_nil_r. Qed.

Lemma uow_frame_trans (w1 w2 w3 : UnitOfWork.world) :
  uow_frame w1 w2 → uow_frame w2 w3 → uow_frame w1 w3.
Proof.
  intros [Hi1 Hs1 Hd1 Hx1 Hg1 [l1 Hc1]] [Hi2 Hs2 Hd2 Hx2 Hg2 [l2 Hc2]].
  split.
  - intros y. by rewrite Hi2.
  - intros y. by rewrite Hs2.
  - intros y. by rewrite Hd2.
  - intros y t Ht Hdel. apply Hx2; [by apply Hx1|done].
  - by rewrite Hg2.
  - exists (l1 ++ l2). by rewrite Hc2, Hc1, app_assoc.
Qed.

(** Entities and repository as they were: nothing to show. *)
Lemma uow_frame_same (w w' : UnitOfWork.world) :
  same_entities w.1 w'.1 →
  UnitOfWork.__repository w'.2 = UnitOfWork.__repository w.2 →
  uow_frame w w'.
Proof.
  intros Hsame Hrepo. split; try (intros y; by rewrite Hsame).
  - by rewrite Hrepo.
  - exists []. unfold calls_of. by rewrite Hrepo, app_nil_r.
Qed.

Section uow_invariants.

Variable hash : string → Z.

Context {order : WeakSet_order}.

Implicit Types (w : UnitOfWork.world) (ent : ref)
  (t : ObjectStateManager.t) (cls : entity_class).

Lemma recorded_deleted_observed (h : Heap) t :
  __state t = DELETED → ObjectStateManager.__get_state hash h t = DELETED.
Proof. intros Hs. by rewrite get_state_cases, Hs. Qed.

Lemma marks_as_frame target cls ent w t out :
  __everest__ (w.1 ent) = Some t →
  marks_as hash target cls ent w t out →
  uow_frame w out.2 ∧ (live_sets_are_sets w.2 → live_sets_are_sets out.2.2).
Proof.
  intros Ht. unfold marks_as. case_bool_decide as Hin.
  - intros (_ & (Hoth & Hid & Hslug & Hdict) & Hev & Hrepo & _ & _ & Hwf).
    split; [|exact Hwf].
    assert (∀ (A : Type) (f : Entity → A), f (out.2.1 ent) = f (w.1 ent) →
            ∀ y, f (out.2.1 y) = f (w.1 y)) as Hall.
    { intros A f Hf y. destruct (decide (y = ent)) as [->|Hne]; [done|].
      by rewrite Hoth. }
    split.
    + by apply (Hall _ ent_id).
    + by apply (Hall _ ent_slug).
    + by apply (Hall _ __dict__).
    + intros y t' Ht' Hdel. destruct (decide (y = ent)) as [->|Hne].
      * rewrite Ht in Ht'. injection Ht' as <-. exfalso.
        rewrite (recorded_deleted_observed _ _ Hdel) in Hin.
        apply legal_transitions_table in Hin. by destruct target.
      * by rewrite Hoth.
    + by rewrite Hrepo.
    + exists []. unfold calls_of. by rewrite Hrepo, app_nil_r.
  - intros (_ & Hsame & Hu). split.
    + apply uow_frame_same; [done|by rewrite Hu].
    + by rewrite Hu.
Qed.

Lemma commit_entity_frame ent w :
  uow_frame w (UnitOfWork.commit_entity hash ent w).2.
Proof.
  pose proof (commit_entity_spec hash ent w)
    as (_ & Hg & Hc & Hoth & Hd & Hi & Hs & Hst).
  simpl in *. split; try done.
  - intros y t Ht Hdel. destruct (decide (y = ent)) as [->|Hne].
    + unfold UnitOfWork.state in Hst. rewrite Ht in Hst.
      rewrite (recorded_deleted_observed _ _ Hdel) in Hst.
      destruct Hst as [_ ->]. done.
    + by rewrite Hoth.
  - eexists. exact Hc.
Qed.

Lemma for_each_commit_entity_frame (l : list ref) w :
  uow_frame w (for_each l (UnitOfWork.commit_entity hash) w).2.
Proof.
  revert w. induction l as [|e l IH]; intros w; simpl.
  { apply uow_frame_refl. }
  run_M. pose proof (commit_entity_frame e w) as H1.
  destruct (UnitOfWork.commit_entity hash e w) as [[[]|err] w1]; simpl in *.
  - eapply uow_frame_trans; [exact H1 | apply IH].
  - exact H1.
Qed.

(** [self.__entity_set_map[cls]] reads the live set of the class and leaves
    every live set as it is (a class not seen before gets an empty one). *)
Lemma entity_set_spec cls w :
  let out := UnitOfWork.entity_set cls w in
  out.1 = Ok (live_set cls w.2) ∧
  out.2.1 = w.1 ∧
  UnitOfWork.__repository out.2.2 = UnitOfWork.__repository w.2 ∧
  (∀ c, live_set c out.2.2 = live_set c w.2) ∧
  (live_sets_are_sets w.2 → live_sets_are_sets out.2.2).
Proof.
  destruct w as [h [repo m]]. unfold live_set, live_sets_are_sets.
  unfold UnitOfWork.entity_set. simpl.
  destruct (UnitOfWork.alist_lookup cls m) as [s|] eqn:Es; simpl.
  { split_and!; done. }
  split_and!; try done.
  - intros c. rewrite alist_lookup_app.
    destruct (UnitOfWork.alist_lookup c m) eqn:Ec; [done|].
    case_decide; [by subst|done].
  - intros [Hk Hs]. split.
    + rewrite fmap_app. simpl.
      apply list.NoDup_app. split_and!; [done| |apply NoDup_singleton].
      intros x Hx ->%list_elem_of_singleton.
      by apply (alist_lookup_None_keys m cls).
    + apply Forall_app. split; [done|]. constructor; [|constructor].
      simpl. apply NoDup_nil_2.
Qed.

Lemma entity_sets_spec (keys : list entity_class) w :
  let out := UnitOfWork.entity_sets keys w in
  out.1 = Ok (flat_map (λ k, live_set k w.2) keys) ∧
  out.2.1 = w.1 ∧
  UnitOfWork.__repository out.2.2 = UnitOfWork.__repository w.2 ∧
  (∀ c, live_set c out.2.2 = live_set c w.2) ∧
  (live_sets_are_sets w.2 → live_sets_are_sets out.2.2).
Proof.
  revert w. induction keys as [|k keys IH]; intros w; simpl.
  { run_M. done. }
  run_M. pose proof (entity_set_spec k w) as (Hr & Hh & Hrepo & Hl & Hwf).
  destruct (UnitOfWork.entity_set k w) as [r w1]. simpl in *. subst r.
  pose proof (IH w1) as (Hr2 & Hh2 & Hrepo2 & Hl2 & Hwf2).
  destruct (UnitOfWork.entity_sets keys w1) as [r2 w2]. simpl in *.
  subst r2. simpl. split_and!.
  - do 2 f_equal. apply flat_map_ext. intros c. apply Hl.
  - by rewrite Hh2.
  - by rewrite Hrepo2.
  - intros c. by rewrite Hl2.
  - auto.
Qed.

(** A query yields, of the entities it walks, those in the state asked
    for, and leaves entities, repository and live sets as they are. *)
Lemma object_iterator_spec (st : OBJECT_STATES)
    (cls : option entity_class) w :
  let out := UnitOfWork.__object_iterator hash st cls w in
  out.1 = Ok (UnitOfWork.yield_in_state hash w.1 st (query_entities cls w.2)) ∧
  out.2.1 = w.1 ∧
  UnitOfWork.__repository out.2.2 = UnitOfWork.__repository w.2 ∧
  (∀ c, live_set c out.2.2 = live_set c w.2) ∧
  (live_sets_are_sets w.2 → live_sets_are_sets out.2.2).
Proof.
  unfold UnitOfWork.__object_iterator, query_entities, query_keys.
  assert (∀ keys,
    let out := (UnitOfWork.entity_sets keys ≫= λ ents,
                gets (λ w : UnitOfWork.world,
                        UnitOfWork.yield_in_state hash w.1 st ents)) w in
    out.1 = Ok (UnitOfWork.yield_in_state hash w.1 st
                  (flat_map (λ k, live_set k w.2) keys)) ∧
    out.2.1 = w.1 ∧
    UnitOfWork.__repository out.2.2 = UnitOfWork.__repository w.2 ∧
    (∀ c, live_set c out.2.2 = live_set c w.2) ∧
    (live_sets_are_sets w.2 → live_sets_are_sets out.2.2)) as Hgen.
  { intros keys. run_M.
    pose proof (entity_sets_spec keys w) as (Hr & Hh & Hrepo & Hl & Hwf).
    destruct (UnitOfWork.entity_sets keys w) as [r w1]. simpl in *.
    subst r. simpl. by rewrite Hh. }
  destruct cls as [c|].
  - exact (Hgen [c]).
  - exact (Hgen (UnitOfWork.__entity_set_map w.2).*1).
Qed.

Lemma after_call_frame (c : uow_call) w :
  uow_frame w (after_call hash c w) ∧
  (live_sets_are_sets w.2 → live_sets_are_sets (after_call hash c w).2).
Proof.
  destruct c as [cls ent|cls ent|cls ent|cls ent| | |st cls]; simpl.
  - rewrite register_new_raises. simpl.
    split; [apply uow_frame_refl | done].
  - destruct (__everest__ (w.1 ent)) as [t|] eqn:Ht.
    + eapply marks_as_frame; [exact Ht | by apply mark_clean_marks].
    + destruct (marks_unregistered hash cls ent w Ht) as (_ & _ & ->).
      split; [apply uow_frame_refl | done].
  - destruct (__everest__ (w.1 ent)) as [t|] eqn:Ht.
    + eapply marks_as_frame; [exact Ht | by apply mark_dirty_marks].
    + destruct (marks_unregistered hash cls ent w Ht) as (-> & _).
      split; [apply uow_frame_refl | done].
  - destruct (__everest__ (w.1 ent)) as [t|] eqn:Ht.
    + eapply marks_as_frame; [exact Ht | by apply mark_deleted_marks].
    + destruct (marks_unregistered hash cls ent w Ht) as (_ & -> & _).
      split; [apply uow_frame_refl | done].
  - rewrite commit_unfold. split; [apply for_each_commit_entity_frame|].
    unfold live_sets_are_sets. by rewrite for_each_commit_entity_map.
  - split; [by apply uow_frame_same|].
    intros _. split; simpl; constructor.
  - pose proof (object_iterator_spec st cls w) as (_ & Hh & Hrepo & _ & Hwf).
    split; [|exact Hwf].
    apply uow_frame_same; [intros y; by rewrite Hh | done].
Qed.

Lemma after_calls_frame (cs : list uow_call) w :
  uow_frame w (after_calls hash cs w) ∧
  (live_sets_are_sets w.2 → live_sets_are_sets (after_calls hash cs w).2).
Proof.
  revert w. induction cs as [|c cs IH]; intros w; simpl.
  { split; [apply uow_frame_refl | done]. }
  destruct (after_call_frame c w) as [H1 Hwf1].
  destruct (IH (after_call hash c w)) as [H2 Hwf2].
  split; [by eapply uow_frame_trans | auto].
Qed.

End uow_invariants.

(** X4. On an entity without a state holder, [mark_dirty] and
    [mark_deleted] raise [ValueError], and [mark_clean] raises [TypeError]
    (it builds the holder with one argument too few); the entities and the
    unit of work are as before. *)
Theorem marks_on_unregistered (hash : string → Z) {order : WeakSet_order}
    (cls : entity_class) (ent : ref) (w : UnitOfWork.world) :
  __everest__ (w.1 ent) = None →
  UnitOfWork.mark_dirty hash cls ent w
    = (Raise (ValueError "Trying to mark an unregistered entity as DIRTY!"),
       w) ∧
  UnitOfWork.mark_deleted hash cls ent w
    = (Raise (ValueError "Trying to mark an unregistered entity as DELETED!"),
       w) ∧
  UnitOfWork.mark_clean hash cls ent w
    = (Raise (TypeError "__init__() takes exactly 3 arguments (2 given)"), w).
Proof. apply marks_unregistered. Qed.

(** X5. [register_new] never returns: it raises [ValueError] for an entity
    that has a state holder and [TypeError] for one that has none (it
    builds the holder with one argument too few), before any id is issued
    and before the entity joins a live set; the entities and the unit of
    work are as before. *)
Theorem register_new_always_raises {order : WeakSet_order}
    (cls : entity_class) (ent : ref) (w : UnitOfWork.world) :
  (is_Some (__everest__ (w.1 ent)) →
   ∃ msg, UnitOfWork.register_new cls ent w = (Raise (ValueError msg), w)) ∧
  (__everest__ (w.1 ent) = None →
   ∃ msg, UnitOfWork.register_new cls ent w = (Raise (TypeError msg), w)) ∧
  (UnitOfWork.register_new cls ent w).1 ≠ Ok tt ∧
  (UnitOfWork.register_new cls ent w).2 = w.
Proof.
  rewrite register_new_raises. split_and!; try done.
  - intros Hs. rewrite bool_decide_eq_true_2 by done. by eexists.
  - intros Hn. rewrite bool_decide_eq_false_2; [by eexists|].
    rewrite Hn. by intros [? ?].
Qed.

Section uow_sequences.

Variable hash : string → Z.

Context {order : WeakSet_order}.

Implicit Types (w : UnitOfWork.world) (cs : list uow_call).

Lemma after_call_repository (c : uow_call) w :
  c ≠ call_commit →
  UnitOfWork.__repository (after_call hash c w).2
  = UnitOfWork.__repository w.2.
Proof.
  destruct c as [cls ent|cls ent|cls ent|cls ent| | |st cls]; simpl;
    intros Hc; try done.
  - by rewrite register_new_raises.
  - destruct (__everest__ (w.1 ent)) as [t|] eqn:Ht.
    + pose proof (mark_clean_marks hash cls ent w t Ht) as H.
      unfold marks_as in H. case_bool_decide.
      * by destruct H as (_ & _ & _ & -> & _).
      * by destruct H as (_ & _ & ->).
    + by destruct (marks_unregistered hash cls ent w Ht) as (_ & _ & ->).
  - destruct (__everest__ (w.1 ent)) as [t|] eqn:Ht.
    + pose proof (mark_dirty_marks hash cls ent w t Ht) as H.
      unfold marks_as in H. case_bool_decide.
      * by destruct H as (_ & _ & _ & -> & _).
      * by destruct H as (_ & _ & ->).
    + by destruct (marks_unregistered hash cls ent w Ht) as (-> & _).
  - destruct (__everest__ (w.1 ent)) as [t|] eqn:Ht.
    + pose proof (mark_deleted_marks hash cls ent w t Ht) as H.
      unfold marks_as in H. case_bool_decide.
      * by destruct H as (_ & _ & _ & -> & _).
      * by destruct H as (_ & _ & ->).
    + by destruct (marks_unregistered hash cls ent w Ht) as (_ & -> & _).
  - by destruct (object_iterator_spec hash st cls w) as (_ & _ & -> & _).
Qed.

(** X6. Whatever calls are made on a unit of work, registrations, marks,
    queries, commits and rollbacks, in any order and whether they return or
    raise, no entity's id, slug or attributes change and no id is issued;
    the repository calls made before stay as they are, and unless a
    [commit] is among the calls none is added. *)
Theorem uow_calls_keep_entity_fields cs w :
  let w' := after_calls hash cs w in
  (∀ y, ent_id (w'.1 y) = ent_id (w.1 y) ∧
        ent_slug (w'.1 y) = ent_slug (w.1 y) ∧
        __dict__ (w'.1 y) = __dict__ (w.1 y)) ∧
  Repository.id_gen (UnitOfWork.__repository w'.2)
    = Repository.id_gen (UnitOfWork.__repository w.2) ∧
  (∃ l, calls_of w' = calls_of w ++ l) ∧
  (call_commit ∉ cs → calls_of w' = calls_of w).
Proof.
  simpl. destruct (after_calls_frame hash cs w) as [[Hi Hs Hd _ Hg Hc] _].
  split_and!; try done.
  revert w Hi Hs Hd Hg Hc. induction cs as [|c cs IH]; intros w _ _ _ _ _ Hn;
    simpl; [done|].
  assert (c ≠ call_commit) as Hc.
  { intros ->. apply Hn, list_elem_of_here. }
  assert (call_commit ∉ cs) as Hcs.
  { intros Hin. by apply Hn, list_elem_of_further. }
  destruct (after_calls_frame hash cs (after_call hash c w))
    as [[Hi Hs Hd _ Hg Hcl] _].
  rewrite (IH _ Hi Hs Hd Hg Hcl Hcs). unfold calls_of.
  by rewrite after_call_repository.
Qed.

(** X7. DELETED is final: an entity observed DELETED is observed DELETED
    after any calls on the unit of work, a commit included. *)
Theorem deleted_is_final cs w (ent : ref) :
  UnitOfWork.state hash w.1 ent = Ok DELETED →
  UnitOfWork.state hash (after_calls hash cs w).1 ent = Ok DELETED.
Proof.
  unfold UnitOfWork.state. intros Hst.
  destruct (__everest__ (w.1 ent)) as [t|] eqn:Ht; [|done].
  injection Hst as Hst.
  assert (__state t = DELETED) as Hdel.
  { rewrite get_state_cases in Hst. destruct (__state t); try done.
    by case_decide. }
  destruct (after_calls_frame hash cs w) as [[_ _ _ Hx _ _] _].
  rewrite (Hx ent t Ht Hdel). f_equal.
  by apply recorded_deleted_observed.
Qed.

(** X8. The live sets stay sets: starting from live sets that list every
    class once and no entity twice within a class, as those of a fresh
    unit of work do, any calls leave them so; an entity marked again under
    the same class is not entered again. *)
Theorem live_sets_stay_sets cs w :
  live_sets_are_sets w.2 →
  live_sets_are_sets (after_calls hash cs w).2.
Proof. apply after_calls_frame. Qed.

End uow_sequences.

Lemma live_sets_are_sets_init (repo : Repository.t) :
  live_sets_are_sets (UnitOfWork.__init__ repo).
Proof. split; simpl; constructor. Qed.

(** ** Queries, rollback and commit *)

Section uow_queries.

Variable hash : string → Z.

Implicit Types (w : UnitOfWork.world) (h : Heap) (cls : entity_class).

Lemma yield_in_state_all_tracked h (st : OBJECT_STATES) (l : list ref) :
  (∀ ent, ent ∈ l → is_Some (__everest__ (h ent))) →
  UnitOfWork.yield_in_state hash h st l = (observed_in hash h st l, None).
Proof.
  induction l as [|e l IH]; intros Hall; simpl; [done|].
  assert (is_Some (__everest__ (h e))) as [t Ht]
    by apply Hall, list_elem_of_here.
  rewrite IH by (intros x Hx; by apply Hall, list_elem_of_further).
  unfold observed_in. simpl. unfold UnitOfWork.state. rewrite Ht.
  case_decide as Hs.
  - by rewrite bool_decide_eq_true_2.
  - by rewrite bool_decide_eq_false_2.
Qed.

Lemma yield_in_state_untracked h (st : OBJECT_STATES) (l1 l2 : list ref)
    (ent : ref) :
  (∀ x, x ∈ l1 → is_Some (__everest__ (h x))) →
  __everest__ (h ent) = None →
  UnitOfWork.yield_in_state hash h st (l1 ++ ent :: l2)
  = (observed_in hash h st l1, Some (AttributeError "state")).
Proof.
  intros Hall Hnone. induction l1 as [|e l1 IH]; simpl.
  { unfold UnitOfWork.state. by rewrite Hnone. }
  assert (is_Some (__everest__ (h e))) as [t Ht]
    by apply Hall, list_elem_of_here.
  rewrite IH by (intros x Hx; by apply Hall, list_elem_of_further).
  unfold observed_in. simpl. unfold UnitOfWork.state. rewrite Ht.
  case_decide as Hs.
  - by rewrite bool_decide_eq_true_2.
  - by rewrite bool_decide_eq_false_2.
Qed.

Lemma elem_of_observed_in h (st : OBJECT_STATES) (l : list ref) (ent : ref) :
  ent ∈ observed_in hash h st l
  ↔ ent ∈ l ∧ UnitOfWork.state hash h ent = Ok st.
Proof.
  unfold observed_in. rewrite list_elem_of_In, filter_In, <- list_elem_of_In.
  destruct (UnitOfWork.state hash h ent) as [s|err].
  - rewrite bool_decide_eq_true. split; intros [? ?]; split; congruence.
  - split; intros [? ?]; discriminate.
Qed.

(** X9. When every entity in the live set of a class has a state holder,
    [get_clean], [get_new], [get_deleted] and [get_dirty] for that class
    yield, in live-set order and without raising, the entities observed in
    that state: each entity of the live set is yielded by exactly one of
    the four, and an entity recorded CLEAN whose fields have changed comes
    under [get_dirty].  The queries change neither entities nor
    repository nor the content of any live set. *)
Theorem queries_split_live_set cls w :
  (∀ ent, ent ∈ live_set cls w.2 → is_Some (__everest__ (w.1 ent))) →
  let yielded st := observed_in hash w.1 st (live_set cls w.2) in
  (UnitOfWork.get_clean hash (Some cls) w).1 = Ok (yielded CLEAN, None) ∧
  (UnitOfWork.get_new hash (Some cls) w).1 = Ok (yielded NEW, None) ∧
  (UnitOfWork.get_deleted hash (Some cls) w).1 = Ok (yielded DELETED, None) ∧
  (UnitOfWork.get_dirty hash (Some cls) w).1 = Ok (yielded DIRTY, None) ∧
  (∀ ent, ent ∈ live_set cls w.2 →
     ∃ st, ent ∈ yielded st ∧ ∀ st', ent ∈ yielded st' → st' = st) ∧
  (∀ st,
     let w' := (UnitOfWork.__object_iterator hash st (Some cls) w).2 in
     w'.1 = w.1 ∧
     UnitOfWork.__repository w'.2 = UnitOfWork.__repository w.2 ∧
     ∀ c, live_set c w'.2 = live_set c w.2).
Proof.
  intros Hall yielded.
  assert (∀ st, (UnitOfWork.__object_iterator hash st (Some cls) w).1
                = Ok (yielded st, None)) as Hq.
  { intros st.
    destruct (object_iterator_spec hash st (Some cls) w) as (-> & _).
    f_equal. unfold query_entities. simpl. rewrite app_nil_r.
    by apply yield_in_state_all_tracked. }
  split_and!; try apply Hq.
  - intros ent Hent. destruct (Hall ent Hent) as [t Ht].
    exists (ObjectStateManager.__get_state hash w.1 t). split.
    + apply elem_of_observed_in. split; [done|].
      unfold UnitOfWork.state. by rewrite Ht.
    + intros st' [_ Hst']%elem_of_observed_in.
      unfold UnitOfWork.state in Hst'. rewrite Ht in Hst'. congruence.
  - intros st.
    by destruct (object_iterator_spec hash st (Some cls) w)
      as (_ & ? & ? & ? & _).
Qed.

(** X10. A query stops at the first entity of the live set that has no
    state holder: it has yielded the entities before it that are in the
    state asked for, and then raises [AttributeError]. *)
Theorem query_stops_at_untracked cls w (st : OBJECT_STATES)
    (l1 l2 : list ref) (ent : ref) :
  live_set cls w.2 = l1 ++ ent :: l2 →
  (∀ x, x ∈ l1 → is_Some (__everest__ (w.1 x))) →
  __everest__ (w.1 ent) = None →
  (UnitOfWork.__object_iterator hash st (Some cls) w).1
  = Ok (observed_in hash w.1 st l1, Some (AttributeError "state")).
Proof.
  intros Hlive Hall Hnone.
  destruct (object_iterator_spec hash st (Some cls) w) as (-> & _).
  f_equal. unfold query_entities. simpl. rewrite app_nil_r, Hlive.
  by apply yield_in_state_untracked.
Qed.

(** X11. [rollback] empties every live set and touches neither the
    entities (their state holders stay attached) nor the repository;
    afterwards every query yields nothing, and a [commit] returns without
    calling the repository. *)
Theorem rollback_discards_live_sets w :
  let w' := (UnitOfWork.rollback w).2 in
  (UnitOfWork.rollback w).1 = Ok tt ∧
  w'.1 = w.1 ∧
  UnitOfWork.__repository w'.2 = UnitOfWork.__repository w.2 ∧
  (∀ c, live_set c w'.2 = []) ∧
  (∀ st c, (UnitOfWork.__object_iterator hash st c w').1 = Ok ([], None)) ∧
  (UnitOfWork.commit hash w').1 = Ok tt ∧
  calls_of (UnitOfWork.commit hash w').2 = calls_of w.
Proof.
  simpl. split_and!; try done.
  - intros st c.
    destruct (object_iterator_spec hash st c
                (w.1, UnitOfWork.set_map [] w.2)) as (-> & _).
    by destruct c.
Qed.

(** X12. [commit] returns normally exactly when every entity of the live
    sets is observed DIRTY and none is listed twice; it then has called
    [repository.replace] for each of them, in order, and nothing else.
    With an entity that is NEW, CLEAN or DELETED, or without a state
    holder, in a live set, [commit] raises. *)
Theorem commit_returns_iff_all_dirty w :
  ((UnitOfWork.commit hash w).1 = Ok tt
   ↔ NoDup (live_entities w) ∧
     ∀ e, e ∈ live_entities w → UnitOfWork.state hash w.1 e = Ok DIRTY) ∧
  ((UnitOfWork.commit hash w).1 = Ok tt →
   calls_of (UnitOfWork.commit hash w).2
   = calls_of w ++ (Repository.replace <$> live_entities w)).
Proof.
  rewrite commit_unfold. split; [apply for_each_commit_entity_ok|].
  intros Hok.
  destruct (for_each_commit_entity hash w (live_entities w) [] w
              (commit_inv_start hash w)) as [_ H].
  destruct (H Hok) as [-> _]. f_equal.
  apply for_each_commit_entity_ok in Hok as [_ Hall]. clear H.
  induction (live_entities w) as [|e l IH]; simpl; [done|].
  unfold due at 1. rewrite (Hall e) by apply list_elem_of_here. simpl.
  f_equal. apply IH. intros x Hx. by apply Hall, list_elem_of_further.
Qed.

End uow_queries.

(** ** More on the entity cache *)

Section EntityCache_more.

Variable h : Heap.

Context {eqv : entity_eq}.

Implicit Types (c : EntityCache.t) (e : ref).

Lemma has_id_false e c :
  EntityCache.has_id (ent_id (h e)) c = false →
  match ent_id (h e) with
  | Some i => EntityCache.__id_map c !! i = None
  | None => True
  end.
Proof.
  unfold EntityCache.has_id. intros Hf%bool_decide_eq_false.
  destruct (ent_id (h e)) as [i|]; simpl in *; [|done].
  destruct (EntityCache.__id_map c !! i) eqn:E; [|done].
  exfalso. apply Hf. by eexists.
Qed.

Lemma has_slug_false e c :
  EntityCache.has_slug (ent_slug (h e)) c = false →
  match ent_slug (h e) with
  | Some s => EntityCache.__slug_map c !! s = None
  | None => True
  end.
Proof.
  unfold EntityCache.has_slug. intros Hf%bool_decide_eq_false.
  destruct (ent_slug (h e)) as [s|]; simpl in *; [|done].
  destruct (EntityCache.__slug_map c !! s) eqn:E; [|done].
  exfalso. apply Hf. by eexists.
Qed.

(** X13. The cache turns down what it cannot key: [add] of an entity
    whose id is [None] raises [ValueError], [remove] and [replace] of an
    entity whose id the cache does not hold raise [KeyError]; in each case
    the cache is as before. *)
Theorem cache_missing_keys e c :
  (ent_id (h e) = None →
   EntityCache.add h e c
   = (Raise (ValueError "Entity ID must not be None."), c)) ∧
  (EntityCache.has_id (ent_id (h e)) c = false →
   EntityCache.remove h e c = (Raise KeyError, c) ∧
   EntityCache.replace h e c = (Raise KeyError, c)).
Proof.
  split.
  - intros Hn. by rewrite cache_add_eq, Hn.
  - intros Hf. pose proof (has_id_false e c Hf) as Hm. split.
    + rewrite cache_remove_eq. destruct (ent_id (h e)); [|done].
      by rewrite Hm.
    + unfold EntityCache.replace, EntityCache.get_by_id. run_M.
      destruct (ent_id (h e)); simpl; [|done]. by rewrite Hm.
Qed.

Lemma list_remove_none e (l : list ref) :
  (∀ y, y ∈ l → y ≠ e ∧ py_eq h y e = false) →
  EntityCache.list_remove h e l = None.
Proof.
  induction l as [|y l IH]; simpl; intros Hall; [reflexivity|].
  destruct (Hall y) as [Hne Heq]; [apply list_elem_of_here|].
  rewrite bool_decide_eq_false_2, Heq by done. simpl.
  rewrite IH; [reflexivity|].
  intros x Hx. by apply Hall, list_elem_of_further.
Qed.

Lemma list_remove_first e (l1 l2 : list ref) (y : ref) :
  (∀ x, x ∈ l1 → x ≠ e ∧ py_eq h x e = false) →
  y = e ∨ py_eq h y e = true →
  EntityCache.list_remove h e (l1 ++ y :: l2) = Some (l1 ++ l2).
Proof.
  intros Hall Hy. induction l1 as [|x l1 IH]; simpl.
  - destruct Hy as [-> | Hy].
    + by rewrite bool_decide_eq_true_2.
    + by rewrite Hy, orb_true_r.
  - destruct (Hall x) as [Hne Heq]; [apply list_elem_of_here|].
    rewrite bool_decide_eq_false_2, Heq by done. simpl.
    rewrite IH; [reflexivity|].
    intros z Hz. by apply Hall, list_elem_of_further.
Qed.

Lemma list_remove_keeps (x e : ref) (l l' : list ref) :
  EntityCache.list_remove h e l = Some l' →
  x ∈ l → x ≠ e → py_eq h x e = false → x ∈ l'.
Proof.
  revert l'. induction l as [|y l IH]; simpl; intros l' Hrm Hin Hne Heq;
    [done|].
  destruct (bool_decide (y = e) || py_eq h y e) eqn:E.
  - injection Hrm as <-. apply elem_of_cons in Hin as [->|Hin]; [|done].
    rewrite bool_decide_eq_false_2, Heq in E by done. discriminate.
  - destruct (EntityCache.list_remove h e l) as [l0|]; [|done].
    injection Hrm as <-. apply elem_of_cons in Hin as [->|Hin].
    + apply list_elem_of_here.
    + apply list_elem_of_further. by apply IH.
Qed.

(** X14. [remove] takes the entries out of the maps under the id and the
    slug of the entity it is given, and out of the list the first entity
    that is the given one or compares equal to it.  So it is not
    all-or-nothing: when the id is held but no entity of the list is or
    equals the given one, it raises [ValueError] from [list.remove] after
    the two entries have been dropped, the list being as before.  And what
    leaves the list, when [remove] returns, is the first entity that is or
    equals the given one: another object than the given one when such a one
    comes first. *)
Theorem cache_remove_not_listed e c :
  EntityCache.has_id (ent_id (h e)) c = true →
  ((∀ y, y ∈ EntityCache.__entities c → y ≠ e ∧ py_eq h y e = false) →
   ∃ c', EntityCache.remove h e c
         = (Raise (ValueError "list.remove(x): x not in list"), c') ∧
     EntityCache.has_id (ent_id (h e)) c' = false ∧
     EntityCache.has_slug (ent_slug (h e)) c' = false ∧
     EntityCache.__entities c' = EntityCache.__entities c) ∧
  (∀ (l1 l2 : list ref) (y : ref),
     EntityCache.__entities c = l1 ++ y :: l2 →
     (∀ x, x ∈ l1 → x ≠ e ∧ py_eq h x e = false) →
     y = e ∨ py_eq h y e = true →
     ∃ c', EntityCache.remove h e c = (Ok tt, c') ∧
       EntityCache.has_id (ent_id (h e)) c' = false ∧
       EntityCache.has_slug (ent_slug (h e)) c' = false ∧
       EntityCache.__entities c' = l1 ++ l2).
Proof.
  unfold EntityCache.has_id, EntityCache.has_slug.
  intros Hhas%bool_decide_eq_true. rewrite cache_remove_eq.
  destruct (ent_id (h e)) as [i|]; simpl in *; [|by destruct Hhas].
  destruct Hhas as [r ->]. simpl.
  assert (bool_decide (is_Some (delete i (EntityCache.__id_map c) !! i))
          = false) as Hid.
  { apply bool_decide_eq_false_2. rewrite lookup_delete_eq. by intros [? ?]. }
  assert (bool_decide
            (is_Some (ent_slug (h e) ≫= λ s,
               match ent_slug (h e) with
               | Some s0 => delete s0 (EntityCache.__slug_map c)
               | None => EntityCache.__slug_map c
               end !! s)) = false) as Hslug.
  { apply bool_decide_eq_false_2.
    destruct (ent_slug (h e)) as [s|]; simpl; [|by intros [? ?]].
    rewrite lookup_delete_eq. by intros [? ?]. }
  split.
  - intros Hnone. rewrite (list_remove_none e _ Hnone).
    eexists. split; [reflexivity|]. simpl. split_and!; done.
  - intros l1 l2 y Hl Hbefore Hy.
    rewrite Hl, (list_remove_first e l1 l2 y Hbefore Hy).
    eexists. split; [reflexivity|]. simpl. split_and!; done.
Qed.

(** X15. [add] then [remove] is a round trip: for an entity with an id
    that the cache holds neither under its id nor under its slug, and such
    that no entity of the list is it or compares equal to it, both calls
    return and the cache is exactly as before. *)
Theorem cache_add_then_remove e c :
  ent_id (h e) ≠ None →
  EntityCache.has_id (ent_id (h e)) c = false →
  EntityCache.has_slug (ent_slug (h e)) c = false →
  (∀ y, y ∈ EntityCache.__entities c → y ≠ e ∧ py_eq h y e = false) →
  ∃ c1, EntityCache.add h e c = (Ok tt, c1) ∧
        EntityCache.remove h e c1 = (Ok tt, c).
Proof.
  intros Hid Hf Hs Hnone.
  pose proof (has_id_false e c Hf) as Hmi.
  pose proof (has_slug_false e c Hs) as Hms.
  rewrite cache_add_eq. destruct (ent_id (h e)) as [i|] eqn:Ei; [|done].
  eexists. split; [reflexivity|].
  rewrite cache_remove_eq, Ei. simpl. rewrite lookup_insert_eq.
  rewrite (list_remove_first e _ [] e Hnone) by (by left).
  rewrite app_nil_r.
  f_equal. destruct c as [l mi ms]. unfold EntityCache.set_entities.
  simpl in *. f_equal.
  - by apply delete_insert_id.
  - destruct (ent_slug (h e)); [by apply delete_insert_id|done].
Qed.

Lemma cache_indexed_add e c :
  cache_indexed h c → cache_indexed h (EntityCache.add h e c).2.
Proof.
  intros [Hi Hs]. rewrite cache_add_eq.
  destruct (ent_id (h e)) as [i|] eqn:Ei; [|done]. split; simpl.
  - intros k r. destruct (decide (i = k)) as [->|Hne].
    + rewrite lookup_insert_eq. intros [= <-]. split; [done|].
      apply elem_of_app. right. apply list_elem_of_here.
    + rewrite lookup_insert_ne by done. intros [? ?]%Hi. split; [done|].
      apply elem_of_app. by left.
  - intros s r. destruct (ent_slug (h e)) as [se|] eqn:Ese.
    + destruct (decide (se = s)) as [->|Hne].
      * rewrite lookup_insert_eq. intros [= <-]. split; [done|].
        apply elem_of_app. right. apply list_elem_of_here.
      * rewrite lookup_insert_ne by done. intros [? ?]%Hs. split; [done|].
        apply elem_of_app. by left.
    + intros [? ?]%Hs. split; [done|]. apply elem_of_app. by left.
Qed.

Section indexed.

(** Entities that compare equal have the same id and the same slug: so it
    is for the comparison of [object], and for classes that compare by id
    and derive the slug from the id. *)
Hypothesis equal_same_keys : ∀ x y, py_eq h x y = true →
  ent_id (h x) = ent_id (h y) ∧ ent_slug (h x) = ent_slug (h y).

Lemma cache_indexed_remove e c :
  cache_indexed h c → cache_indexed h (EntityCache.remove h e c).2.
Proof.
  intros [Hi Hs]. rewrite cache_remove_eq.
  destruct (ent_id (h e)) as [i|] eqn:Ei; [|done].
  destruct (EntityCache.__id_map c !! i) as [r0|] eqn:Emi; [|done]. simpl.
  assert (∀ k r, delete i (EntityCache.__id_map c) !! k = Some r →
                 ent_id (h r) = Some k ∧ r ∈ EntityCache.__entities c ∧
                 r ≠ e ∧ py_eq h r e = false) as Hi'.
  { intros k r. destruct (decide (i = k)) as [->|Hne].
    - by rewrite lookup_delete_eq.
    - rewrite lookup_delete_ne by done. intros Hk.
      destruct (Hi k r Hk) as [Hid Hin]. split_and!; try done.
      + intros ->. congruence.
      + destruct (py_eq h r e) eqn:E; [|done].
        destruct (equal_same_keys r e E) as [Hsame _]. congruence. }
  assert (∀ s r, match ent_slug (h e) with
                 | Some s0 => delete s0 (EntityCache.__slug_map c)
                 | None => EntityCache.__slug_map c
                 end !! s = Some r →
                 ent_slug (h r) = Some s ∧ r ∈ EntityCache.__entities c ∧
                 r ≠ e ∧ py_eq h r e = false) as Hs'.
  { intros s r Hk.
    assert (EntityCache.__slug_map c !! s = Some r ∧ ent_slug (h e) ≠ Some s)
      as [Hk' Hse].
    { destruct (ent_slug (h e)) as [se|] eqn:Ese; [|done].
      destruct (decide (se = s)) as [->|Hne].
      - by rewrite lookup_delete_eq in Hk.
      - rewrite lookup_delete_ne in Hk by done. split; [done|congruence]. }
    destruct (Hs s r Hk') as [Hsl Hin]. split_and!; try done.
    - intros ->. congruence.
    - destruct (py_eq h r e) eqn:E; [|done].
      destruct (equal_same_keys r e E) as [_ Hsame]. congruence. }
  destruct (EntityCache.list_remove h e (EntityCache.__entities c))
    as [l|] eqn:El; split; simpl.
  - intros k r Hk. destruct (Hi' k r Hk) as (? & ? & ? & ?).
    split; [done|]. by apply (list_remove_keeps r e _ l El).
  - intros s r Hk. destruct (Hs' s r Hk) as (? & ? & ? & ?).
    split; [done|]. by apply (list_remove_keeps r e _ l El).
  - intros k r Hk. by destruct (Hi' k r Hk) as (? & ? & ?).
  - intros s r Hk. by destruct (Hs' s r Hk) as (? & ? & ?).
Qed.

Lemma cache_indexed_replace e c :
  cache_indexed h c → cache_indexed h (EntityCache.replace h e c).2.
Proof.
  intros Hc. unfold EntityCache.replace. run_M.
  destruct (EntityCache.get_by_id (ent_id (h e)) c) as [old|]; [|done].
  pose proof (cache_indexed_remove old c Hc) as H1.
  destruct (EntityCache.remove h old c) as [[[]|err] c1]; [|done].
  by apply cache_indexed_add.
Qed.

(** X16. The two maps of a cache stay an index of its list, for entities
    that compare equal only when they have the same id and the same slug:
    if every entry of the id map and of the slug map leads to an entity
    that carries that id or slug and is in the list of entities, which
    holds of an empty cache, then it does so after [add], [remove] and
    [replace], whether they return or raise, the entities being left alone;
    a lookup by id or by slug then yields an entity with that id or slug. *)
Theorem cache_stays_indexed e c :
  cache_indexed h EntityCache.__init__ ∧
  (cache_indexed h c →
   cache_indexed h (EntityCache.add h e c).2 ∧
   cache_indexed h (EntityCache.remove h e c).2 ∧
   cache_indexed h (EntityCache.replace h e c).2 ∧
   (∀ k r, EntityCache.get_by_id k c = Some r → ent_id (h r) = k) ∧
   (∀ s r, EntityCache.get_by_slug s c = Some r → ent_slug (h r) = s)).
Proof.
  split.
  - split; intros ? ?; simpl; by rewrite lookup_empty.
  - intros Hc. split_and!.
    + by apply cache_indexed_add.
    + by apply cache_indexed_remove.
    + by apply cache_indexed_replace.
    + intros [k|] r; [|done]. simpl. intros Hk.
      by destruct (proj1 Hc k r Hk).
    + intros [s|] r; [|done]. simpl. intros Hk.
      by destruct (proj2 Hc s r Hk).
Qed.

End indexed.

End EntityCache_more.

(** ** The cache manager and the session *)

(** X17. The cache manager makes the cache of a class on first access and
    hands out that same cache from then on: the first access to a class
    enters an empty cache and leaves the caches of the other classes alone;
    an access to a class that has a cache returns it and changes
    nothing. *)
Theorem cache_manager_getitem (cls : entity_class)
    (m : EntityCacheManager.t) :
  let out := EntityCacheManager.__getitem__ cls m in
  ∃ c, out.1 = Ok c ∧
    EntityCacheManager.__cache_map out.2 !! cls = Some c ∧
    (∀ cls', cls' ≠ cls →
       EntityCacheManager.__cache_map out.2 !! cls'
       = EntityCacheManager.__cache_map m !! cls') ∧
    (EntityCacheManager.__cache_map m !! cls = None →
       c = EntityCache.__init__) ∧
    (is_Some (EntityCacheManager.__cache_map m !! cls) → out.2 = m) ∧
    EntityCacheManager.__getitem__ cls out.2 = (Ok c, out.2).
Proof.
  destruct m as [m]. unfold EntityCacheManager.__getitem__,
    EntityCacheManager._initialize_cache. run_M.
  destruct (m !! cls) as [c|] eqn:Ec; simpl.
  - exists c. split_and!; try done. by rewrite Ec.
  - exists EntityCache.__init__. rewrite lookup_insert_eq.
    split_and!; try done.
    intros cls' Hne. by rewrite lookup_insert_ne.
Qed.

Lemma session_add_raises (cls : entity_class) (e : ref)
    (w : Session.world) :
  let out := Session.add cls e w in
  (∃ err, out.1 = Raise err) ∧
  out.2.1 = w.1 ∧
  Session.__unit_of_work out.2.2 = Session.__unit_of_work w.2 ∧
  (∀ c, cache_of c out.2 = cache_of c w).
Proof.
  destruct w as [h [u [m]]]. unfold cache_of. simpl.
  unfold Session.add, Session.on_cache_mgr, EntityCacheManager.__getitem__,
    EntityCacheManager._initialize_cache, Session.on_unit_of_work,
    UnitOfWork.register_new_1.
  run_M.
  assert (∀ c, default EntityCache.__init__
                 (<[cls := EntityCache.__init__]> m !! c)
               = default EntityCache.__init__ (m !! c) ∨ is_Some (m !! cls))
    as Hnew.
  { intros c. destruct (m !! cls) eqn:Ecls; [right; by eexists|left].
    destruct (decide (cls = c)) as [<-|Hne].
    - by rewrite lookup_insert_eq, Ecls.
    - by rewrite lookup_insert_ne. }
  destruct (m !! cls) as [c0|] eqn:Ec; simpl.
  - destruct (bool_decide (ent_id (h e) ≠ None) && EntityCache.has_id _ c0);
      simpl; [split_and!; by eauto|].
    destruct (bool_decide (ent_slug (h e) ≠ None)
              && EntityCache.has_slug _ c0);
      simpl; split_and!; by eauto.
  - rewrite has_id_init, andb_false_r. simpl.
    rewrite has_slug_init, andb_false_r. simpl.
    split_and!; try by eauto.
    intros c. destruct (Hnew c) as [->|[? ?]]; done.
Qed.

(** [Session.add] on an entity whose id and slug the cache of its class
    does not hold: the call of [register_new] is reached. *)
Lemma session_add_free_keys (cls : entity_class) (e : ref)
    (w : Session.world) :
  EntityCache.has_id (ent_id (w.1 e)) (cache_of cls w) = false →
  EntityCache.has_slug (ent_slug (w.1 e)) (cache_of cls w) = false →
  (Session.add cls e w).1
  = Raise (TypeError "register_new() takes exactly 3 arguments (2 given)").
Proof.
  destruct w as [h [u [m]]]. unfold cache_of. simpl. intros Hid Hslug.
  unfold Session.add, Session.on_cache_mgr, EntityCacheManager.__getitem__,
    EntityCacheManager._initialize_cache, Session.on_unit_of_work,
    UnitOfWork.register_new_1.
  run_M.
  destruct (m !! cls) as [c0|] eqn:Ec; simpl in *.
  - rewrite Hid, andb_false_r. simpl. rewrite Hslug, andb_false_r. done.
  - rewrite Hid, andb_false_r. simpl. rewrite Hslug, andb_false_r. done.
Qed.

(** X18. [Session.add] never returns: when the id and the slug are free it
    goes on to [register_new(entity)], called without the entity class,
    which raises [TypeError].  Whatever it raises, the entities and the
    unit of work are as before and no cache holds anything more than
    before (at most, the empty cache of the class has been made). *)
Theorem session_add_never_returns (cls : entity_class) (e : ref)
    (w : Session.world) :
  let out := Session.add cls e w in
  (∃ err, out.1 = Raise err) ∧
  out.2.1 = w.1 ∧
  Session.__unit_of_work out.2.2 = Session.__unit_of_work w.2 ∧
  (∀ c, cache_of c out.2 = cache_of c w) ∧
  (EntityCache.has_id (ent_id (w.1 e)) (cache_of cls w) = false →
   EntityCache.has_slug (ent_slug (w.1 e)) (cache_of cls w) = false →
   out.1
   = Raise (TypeError "register_new() takes exactly 3 arguments (2 given)")).
Proof.
  cbv zeta. destruct (session_add_raises cls e w) as (H1 & H2 & H3 & H4).
  split_and!; try done. apply session_add_free_keys.
Qed.

Section Session_more.

Variable hash : string → Z.

Lemma cache_of_on_unit_of_work {A} (m : M UnitOfWork.world A)
    (w : Session.world) (c : entity_class) :
  cache_of c (Session.on_unit_of_work m w).2 = cache_of c w.
Proof.
  unfold Session.on_unit_of_work, cache_of.
  by destruct (m (w.1, Session.__unit_of_work w.2)) as [r [h' u']].
Qed.

(** X19. Neither [commit] nor [rollback] of a session touches a cache;
    after [rollback] the entities are as before, what [get_by_id] finds
    is what it found before, and [get_by_slug] finds exactly what the cache
    of the class holds under the slug, the live sets being empty. *)
Theorem session_rollback_keeps_caches (cls : entity_class)
    (k : option Z) (sl : option string) (w : Session.world) :
  let w' := (Session.rollback w).2 in
  (∀ c, cache_of c w' = cache_of c w) ∧
  (∀ c, cache_of c (Session.commit hash w).2 = cache_of c w) ∧
  w'.1 = w.1 ∧
  (Session.get_by_id cls k w').1 = (Session.get_by_id cls k w).1 ∧
  (Session.get_by_slug hash cls sl w').1
  = Ok (EntityCache.get_by_slug sl (cache_of cls w)).
Proof.
  cbv zeta. split_and!.
  - intros c. apply (cache_of_on_unit_of_work UnitOfWork.rollback).
  - intros c. apply (cache_of_on_unit_of_work (UnitOfWork.commit hash)).
  - done.
  - destruct w as [h [u [m]]].
    unfold Session.get_by_id, Session.on_cache_mgr,
      EntityCacheManager.__getitem__, EntityCacheManager._initialize_cache.
    run_M. by destruct (m !! cls).
  - rewrite session_get_by_slug_lookup_order.
    unfold Session.rollback.
    rewrite (cache_of_on_unit_of_work UnitOfWork.rollback w cls).
    by destruct (EntityCache.get_by_slug sl (cache_of cls w)).
Qed.

Lemma yield_in_state_cons (h : Heap) (st : OBJECT_STATES) (e : ref)
    (l : list ref) (t : ObjectStateManager.t) :
  __everest__ (h e) = Some t →
  UnitOfWork.yield_in_state hash h st (e :: l)
  = if decide (ObjectStateManager.__get_state hash h t = st)
    then (e :: (UnitOfWork.yield_in_state hash h st l).1,
          (UnitOfWork.yield_in_state hash h st l).2)
    else UnitOfWork.yield_in_state hash h st l.
Proof.
  intros Ht. simpl. unfold UnitOfWork.state. rewrite Ht.
  destruct (UnitOfWork.yield_in_state hash h st l). by case_decide.
Qed.

Lemma observed_in_cons (h : Heap) (st : OBJECT_STATES) (e : ref)
    (l : list ref) (t : ObjectStateManager.t) :
  __everest__ (h e) = Some t →
  observed_in hash h st (e :: l)
  = if decide (ObjectStateManager.__get_state hash h t = st)
    then e :: observed_in hash h st l
    else observed_in hash h st l.
Proof.
  intros Ht. unfold observed_in. simpl. unfold UnitOfWork.state at 1.
  rewrite Ht. case_decide.
  - by rewrite bool_decide_eq_true_2.
  - by rewrite bool_decide_eq_false_2.
Qed.

Lemma yield_in_state_app (h : Heap) (st : OBJECT_STATES)
    (l1 l2 : list ref) :
  (∀ x, x ∈ l1 → is_Some (__everest__ (h x))) →
  UnitOfWork.yield_in_state hash h st (l1 ++ l2)
  = (observed_in hash h st l1
       ++ (UnitOfWork.yield_in_state hash h st l2).1,
     (UnitOfWork.yield_in_state hash h st l2).2).
Proof.
  intros Hall. induction l1 as [|e l1 IH].
  { simpl. by destruct (UnitOfWork.yield_in_state hash h st l2). }
  assert (is_Some (__everest__ (h e))) as [t Ht]
    by apply Hall, list_elem_of_here.
  rewrite <- app_comm_cons, (yield_in_state_cons _ _ _ _ _ Ht).
  rewrite (observed_in_cons _ _ _ _ _ Ht).
  rewrite IH by (intros x Hx; by apply Hall, list_elem_of_further).
  by case_decide.
Qed.

Lemma find_app_skip {A} (f : A → bool) (l1 l2 : list A) :
  (∀ x, x ∈ l1 → f x = false) →
  List.find f (l1 ++ l2) = List.find f l2.
Proof.
  induction l1 as [|y l1 IH]; simpl; intros Hall; [done|].
  rewrite (Hall y) by apply list_elem_of_here.
  apply IH. intros x Hx. by apply Hall, list_elem_of_further.
Qed.

(** X20. When the cache of the class does not hold the slug,
    [Session.get_by_slug] returns the first entity of the class's live set
    that is observed NEW and carries the slug, whatever comes after it in
    the live set.  The slug [None] is no exception: it is never a key of
    the cache, so [get_by_slug(cls, None)] returns the first NEW entity
    that has no slug. *)
Theorem session_get_by_slug_first_new (cls : entity_class)
    (sl : option string) (w : Session.world) (l1 l2 : list ref)
    (ent : ref) :
  EntityCache.get_by_slug sl (cache_of cls w) = None →
  live_set cls (Session.__unit_of_work w.2) = l1 ++ ent :: l2 →
  (∀ x, x ∈ l1 → is_Some (__everest__ (w.1 x)) ∧
                 ¬ (UnitOfWork.state hash w.1 x = Ok NEW ∧
                    ent_slug (w.1 x) = sl)) →
  UnitOfWork.state hash w.1 ent = Ok NEW →
  ent_slug (w.1 ent) = sl →
  (Session.get_by_slug hash cls sl w).1 = Ok (Some ent) ∧
  EntityCache.get_by_slug None (cache_of cls w) = None.
Proof.
  intros Hmiss Hlive Hbefore Hnew Hslug. split; [|done].
  rewrite session_get_by_slug_lookup_order, Hmiss.
  unfold live_set in Hlive. simpl. rewrite Hlive.
  rewrite yield_in_state_app by (intros x Hx; by apply Hbefore).
  simpl. rewrite Hnew.
  destruct (UnitOfWork.yield_in_state hash w.1 NEW l2) as [ys err].
  simpl. rewrite find_app_skip.
  - simpl. by rewrite bool_decide_eq_true_2.
  - intros x [Hx Hst]%elem_of_observed_in.
    apply bool_decide_eq_false_2. intros Hsl.
    by apply (proj2 (Hbefore x Hx)).
Qed.

End Session_more.

(** X21. [ObjectStateManager(obj, state)] takes NEW or CLEAN as the
    initial state and raises [ValueError] for DIRTY and DELETED; the
    holder it makes tracks the object and is observed in the initial state
    for as long as the public fields of the object keep their
    fingerprint. *)
Theorem holder_init_states (hash : string → Z) (h : Heap) (obj : ref)
    (st : OBJECT_STATES) :
  match st with
  | NEW | CLEAN =>
      ∃ t, ObjectStateManager.__init__ hash h obj st = Ok t ∧
        __obj_ref t = obj ∧ __state t = st ∧
        ∀ h' : Heap,
          fingerprint hash h' t = fingerprint hash h t →
          ObjectStateManager.__get_state hash h' t = st
  | DIRTY | DELETED =>
      ∃ msg, ObjectStateManager.__init__ hash h obj st
             = Raise (ValueError msg)
  end.
Proof.
  unfold ObjectStateManager.__init__.
  destruct st; simpl; try (by eexists).
  eexists. split_and!; try done.
  intros h' Hfp. rewrite get_state_cases. simpl.
  rewrite decide_True; [done|]. by rewrite Hfp.
Qed.

(** ** Concrete runs for the further properties *)

Section further_runs.

(** Unless a run says otherwise, its weak sets keep the order of insertion
    and its entities are equal when they have the same id. *)
#[local] Existing Instance insertion_order.

#[local] Existing Instance eq_by_id.

Lemma mark_dirty_outcome_witness :
  (UnitOfWork.mark_dirty (order := newest_first) py_hash "Foo" 0%nat
     (tracked CLEAN)).1 = Ok tt ∧
  0%nat ∈ live_set "Foo"
            (UnitOfWork.mark_dirty (order := newest_first) py_hash "Foo"
               0%nat (tracked CLEAN)).2.2.
Proof.
  destruct (mark_dirty_outcome py_hash (order := newest_first) "Foo" 0%nat
              (tracked CLEAN) clean_holder) as [H _];
    [vm_compute; reflexivity|].
  destruct H as (H1 & _ & H3 & _); [right; vm_compute; reflexivity|].
  split; assumption.
Defined.

Lemma mark_deleted_outcome_witness :
  (UnitOfWork.mark_deleted py_hash "Foo" 0%nat (tracked NEW)).1 = Ok tt ∧
  UnitOfWork.state py_hash
    (UnitOfWork.mark_deleted py_hash "Foo" 0%nat (tracked NEW)).2.1 0%nat
  = Ok DELETED.
Proof.
  destruct (mark_deleted_outcome py_hash "Foo" 0%nat (tracked NEW)
              new_holder) as [H _]; [vm_compute; reflexivity|].
  destruct H as (H1 & H2 & _); [vm_compute; discriminate|].
  split; assumption.
Defined.

Lemma mark_clean_outcome_witness :
  (UnitOfWork.mark_clean py_hash "Foo" 0%nat dirty_world).1 = Ok tt.
Proof.
  destruct (mark_clean_outcome py_hash "Foo" 0%nat dirty_world
              (with_state DIRTY clean_holder)) as [H _];
    [vm_compute; reflexivity|].
  destruct H as (H1 & _); [vm_compute; reflexivity|].
  assumption.
Defined.

Lemma marks_on_unregistered_witness :
  UnitOfWork.mark_dirty py_hash "Foo" 1%nat (tracked NEW)
  = (Raise (ValueError "Trying to mark an unregistered entity as DIRTY!"),
     tracked NEW).
Proof.
  destruct (marks_on_unregistered py_hash "Foo" 1%nat (tracked NEW))
    as (H & _); [vm_compute; reflexivity|].
  exact H.
Defined.

Lemma register_new_always_raises_witness :
  ∃ msg, UnitOfWork.register_new "Foo" 0%nat (tracked NEW)
         = (Raise (ValueError msg), tracked NEW).
Proof.
  destruct (register_new_always_raises "Foo" 0%nat (tracked NEW))
    as (H & _).
  apply H. exists new_holder. vm_compute. reflexivity.
Defined.

Lemma uow_calls_keep_entity_fields_witness :
  calls_of (after_calls py_hash
              [call_mark_dirty "Foo" 0%nat; call_rollback] (tracked CLEAN))
  = calls_of (tracked CLEAN).
Proof.
  destruct (uow_calls_keep_entity_fields py_hash
              [call_mark_dirty "Foo" 0%nat; call_rollback] (tracked CLEAN))
    as (_ & _ & _ & H).
  apply H. intros Hin.
  apply elem_of_cons in Hin as [Hin|Hin]; [discriminate Hin|].
  apply elem_of_cons in Hin as [Hin|Hin]; [discriminate Hin|].
  by apply elem_of_nil in Hin.
Defined.

Lemma deleted_is_final_witness :
  UnitOfWork.state py_hash
    (after_calls py_hash [call_commit; call_mark_dirty "Foo" 0%nat]
       deleted_world).1 0%nat
  = Ok DELETED.
Proof.
  apply (deleted_is_final py_hash). vm_compute. reflexivity.
Defined.

Lemma live_sets_stay_sets_witness :
  live_sets_are_sets
    (after_calls py_hash
       [call_mark_deleted "Foo" 0%nat; call_mark_dirty "Foo" 0%nat]
       (UnitOfWork.mark_dirty py_hash "Bar" 0%nat (tracked CLEAN)).2).2.
Proof.
  apply (live_sets_stay_sets py_hash).
  apply (live_sets_stay_sets py_hash [call_mark_dirty "Bar" 0%nat]).
  split; vm_compute; constructor.
Defined.

Lemma queries_split_live_set_witness :
  (UnitOfWork.get_dirty py_hash (Some "Foo") dirty_world).1
  = Ok (observed_in py_hash dirty_world.1 DIRTY
          (live_set "Foo" dirty_world.2), None).
Proof.
  destruct (queries_split_live_set py_hash "Foo" dirty_world)
    as (_ & _ & _ & H & _); [|exact H].
  assert (live_set "Foo" dirty_world.2 = [0%nat]) as ->
    by (vm_compute; reflexivity).
  intros ent ->%list_elem_of_singleton.
  exists (with_state DIRTY clean_holder). vm_compute. reflexivity.
Defined.

Lemma query_stops_at_untracked_witness :
  (UnitOfWork.__object_iterator py_hash NEW (Some "Foo") untracked_world).1
  = Ok (observed_in py_hash untracked_world.1 NEW [0%nat],
        Some (AttributeError "state")).
Proof.
  apply (query_stops_at_untracked py_hash "Foo" untracked_world NEW
           [0%nat] [] 1%nat).
  - vm_compute. reflexivity.
  - intros x ->%list_elem_of_singleton. exists new_holder.
    vm_compute. reflexivity.
  - vm_compute. reflexivity.
Defined.

Lemma commit_returns_iff_all_dirty_witness :
  calls_of (UnitOfWork.commit py_hash dirty_world).2
  = calls_of dirty_world
    ++ (Repository.replace <$> live_entities dirty_world).
Proof.
  destruct (commit_returns_iff_all_dirty py_hash dirty_world) as [_ H].
  apply H. vm_compute. reflexivity.
Defined.

Lemma cache_missing_keys_witness :
  EntityCache.add fives 2%nat loaded_cache
  = (Raise (ValueError "Entity ID must not be None."), loaded_cache) ∧
  EntityCache.remove fives 2%nat loaded_cache
  = (Raise KeyError, loaded_cache).
Proof.
  destruct (cache_missing_keys fives 2%nat loaded_cache) as [H1 H2].
  split; [apply H1; reflexivity|].
  apply H2. vm_compute. reflexivity.
Defined.

Lemma cache_remove_not_listed_witness :
  (∃ c', EntityCache.remove (eqv := eq_of_object) fives 1%nat loaded_cache
         = (Raise (ValueError "list.remove(x): x not in list"), c') ∧
     EntityCache.has_id (Some 5%Z) c' = false) ∧
  (∃ c', EntityCache.remove (eqv := eq_by_id) fives 1%nat loaded_cache
         = (Ok tt, c') ∧
     EntityCache.__entities c' = []).
Proof.
  assert (EntityCache.__entities loaded_cache = [0%nat]) as Hl
    by (vm_compute; reflexivity).
  split.
  - destruct (cache_remove_not_listed (eqv := eq_of_object) fives 1%nat
                loaded_cache) as [Ha _]; [vm_compute; reflexivity|].
    destruct Ha as (c' & H1 & H2 & _).
    + rewrite Hl. intros y Hy%list_elem_of_singleton. rewrite Hy.
      split; [discriminate | reflexivity].
    + exists c'. split; assumption.
  - destruct (cache_remove_not_listed (eqv := eq_by_id) fives 1%nat
                loaded_cache) as [_ Hb]; [vm_compute; reflexivity|].
    destruct (Hb [] [] 0%nat) as (c' & H1 & _ & _ & H4).
    + exact Hl.
    + intros x Hx. by apply elem_of_nil in Hx.
    + right. vm_compute. reflexivity.
    + exists c'. split; assumption.
Defined.

Lemma cache_add_then_remove_witness :
  ∃ c1, EntityCache.add fives 0%nat EntityCache.__init__ = (Ok tt, c1) ∧
        EntityCache.remove fives 0%nat c1 = (Ok tt, EntityCache.__init__).
Proof.
  apply (cache_add_then_remove fives 0%nat EntityCache.__init__).
  - discriminate.
  - vm_compute. reflexivity.
  - vm_compute. reflexivity.
  - intros y Hy. by apply elem_of_nil in Hy.
Defined.

Lemma cache_stays_indexed_witness :
  cache_indexed fives loaded_cache ∧
  cache_indexed fives
    (EntityCache.replace (eqv := eq_by_id_and_slug) fives 0%nat
       loaded_cache).2.
Proof.
  assert (∀ x y, @py_eq eq_by_id_and_slug fives x y = true →
            ent_id (fives x) = ent_id (fives y)
            ∧ ent_slug (fives x) = ent_slug (fives y)) as Hkeys.
  { intros x y H. apply bool_decide_eq_true in H. exact H. }
  destruct (cache_stays_indexed fives Hkeys 0%nat EntityCache.__init__)
    as [Hinit H].
  destruct (H Hinit) as (Hadd & _).
  split; [exact Hadd|].
  destruct (cache_stays_indexed fives Hkeys 0%nat loaded_cache) as [_ H'].
  destruct (H' Hadd) as (_ & _ & Hrep & _). exact Hrep.
Defined.

(** The index is lost with entities that are equal as soon as they have the
    same id: [remove], given object 1, takes the equal object 0 out of the
    list and leaves the entry under the slug of object 0 in the slug map. *)
Remark remove_by_id_loses_index :
  (EntityCache.remove (eqv := eq_by_id) fives 1%nat loaded_cache).1 = Ok tt ∧
  EntityCache.__entities
    (EntityCache.remove (eqv := eq_by_id) fives 1%nat loaded_cache).2 = [] ∧
  EntityCache.get_by_slug (Some "five")
    (EntityCache.remove (eqv := eq_by_id) fives 1%nat loaded_cache).2
  = Some 0%nat ∧
  ¬ cache_indexed fives
      (EntityCache.remove (eqv := eq_by_id) fives 1%nat loaded_cache).2.
Proof.
  split_and!; try (vm_compute; reflexivity).
  intros [_ Hs]. destruct (Hs "five" 0%nat) as [_ Hin].
  - vm_compute. reflexivity.
  - vm_compute in Hin. by apply elem_of_nil in Hin.
Qed.

Lemma cache_manager_getitem_witness :
  ∃ c, (EntityCacheManager.__getitem__ "Foo" EntityCacheManager.__init__).1
       = Ok c ∧ c = EntityCache.__init__.
Proof.
  destruct (cache_manager_getitem "Foo" EntityCacheManager.__init__)
    as (c & H1 & _ & _ & H4 & _).
  exists c. split; [exact H1|]. apply H4. reflexivity.
Defined.

Lemma session_get_by_slug_first_new_witness :
  (Session.get_by_slug py_hash "Foo" None unslugged_new).1
  = Ok (Some 0%nat).
Proof.
  destruct (session_get_by_slug_first_new py_hash "Foo" None unslugged_new
              [2%nat] [1%nat] 0%nat) as [H _]; try exact H.
  - reflexivity.
  - vm_compute. reflexivity.
  - intros x Hx. apply list_elem_of_singleton in Hx. rewrite Hx. split.
    + exists (holder_of 2%nat (py_hash "name:x")). vm_compute. reflexivity.
    + intros [Hnew _]. vm_compute in Hnew. discriminate Hnew.
  - vm_compute. reflexivity.
  - vm_compute. reflexivity.
Defined.

End further_runs.
